(** * General-ledger analysis: balance by account, net income, integrity check

    Shallow embedding of [analysis_core.py].  A pandas [DataFrame] is a list
    of rows in frame order; a [Series] or a frame indexed by account is an
    association list, because the index of the General Balance is ordered and
    may hold the same label twice.

    Modelling conventions.
    - The column [Montant] holds exact rationals ([Q]), the two-place
      decimals of the ledger among them.  The binary rounding of float64
      sums is outside the model; equalities between amounts are stated with
      [==] on [Q] unless the two sides are computed the same way.
    - Account codes are byte strings, as [read_csv] delivers them under
      [dtype=str].  A missing cell (NaN) is outside the model.
    - [Index.astype(int)] parses every label with Python's [int] and stores
      the value in numpy's default integer, taken as signed 64-bit; a label
      that does not parse raises [ValueError], a value that does not fit
      raises [OverflowError].  [Py.int] covers the ASCII part of Python's
      syntax: blanks around, one sign, digits, single underscores between
      digits.
    - [sort_index] is modelled by a stable insertion sort.  numpy's default
      sort leaves the order of equal keys unspecified; no theorem below
      depends on the order of equal keys. *)

From Stdlib Require Import ZArith QArith Qround List String Ascii Bool Lia.
From Stdlib Require Import Permutation Sorted DecimalString DecimalPos DecimalZ.
From Stdlib Require Import OrderedTypeEx Qabs Lqa.
Import ListNotations.

Local Open Scope string_scope.
Local Open Scope list_scope.

(** ** Data model *)

(** One line of [grand_livre_10k.csv]. *)
Record Ecriture := {
  Date : string;
  Compte_Debit : string;
  Compte_Credit : string;
  Montant : Q;
  Libelle : string;
  ID_Transaction : Z
}.

Definition DataFrame := list Ecriture.

(** A [Series] of amounts indexed by account code. *)
Definition Series := list (string * Q).

(** One line of the General Balance. *)
Record Balance := {
  Total_Debit : Q;
  Total_Credit : Q;
  Final_Balance : Q
}.

(** The General Balance: account code -> totals, in index order. *)
Definition BalanceFrame := list (string * Balance).

Record IncomeStatement := {
  Total_Products : Q;
  Total_Charges : Q;
  Net_Income : Q
}.

(** Exceptions that leave [calculate_balance_by_account]: a label that
    [int] rejects, a value beyond the 64-bit index.  (Older pandas re-raise
    the first as [TypeError]; either way nothing catches it.) *)
Inductive exn := ValueError | OverflowError.

Inductive result (A : Type) :=
| Ok (a : A)
| Raise (e : exn).
Arguments Ok {A} a.
Arguments Raise {A} e.

Definition bind {A B} (r : result A) (k : A -> result B) : result B :=
  match r with
  | Ok a => k a
  | Raise e => Raise e
  end.

(** ** Python's [int(str)] and [str(int)] *)

Module Py.

(** Characters that [int] strips on both sides (ASCII part of
    [str.isspace]). *)
Definition is_space (c : ascii) : bool :=
  let n := nat_of_ascii c in
  ((9 <=? n) && (n <=? 13) || (28 <=? n) && (n <=? 32))%nat.

Definition digit_val (c : ascii) : option Z :=
  let n := nat_of_ascii c in
  if ((48 <=? n) && (n <=? 57))%nat then Some (Z.of_nat n - 48)%Z else None.

Fixpoint lstrip (s : string) : string :=
  match s with
  | String c s' => if is_space c then lstrip s' else s
  | EmptyString => EmptyString
  end.

Fixpoint rstrip (s : string) : string :=
  match s with
  | String c s' =>
      match rstrip s' with
      | EmptyString => if is_space c then EmptyString else String c EmptyString
      | t => String c t
      end
  | EmptyString => EmptyString
  end.

Definition strip (s : string) : string := rstrip (lstrip s).

(** Decimal digits, single underscores allowed between two digits.
    [after_digit] tells whether the previous character was a digit. *)
Fixpoint digits (s : string) (acc : Z) (after_digit : bool) : option Z :=
  match s with
  | EmptyString => if after_digit then Some acc else None
  | String c s' =>
      match digit_val c with
      | Some d => digits s' (10 * acc + d)%Z true
      | None =>
          if Ascii.eqb c "_" && after_digit then digits s' acc false
          else None
      end
  end.

(** [int(s)] in base 10: [None] stands for [ValueError]. *)
Definition int (s : string) : option Z :=
  match strip s with
  | String "+" body => digits body 0%Z false
  | String "-" body => option_map Z.opp (digits body 0%Z false)
  | body => digits body 0%Z false
  end.

(** [str(n)] for an integer. *)
Definition str (n : Z) : string := NilEmpty.string_of_int (Z.to_int n).

End Py.

(** ** pandas operations used by the analysis *)

(** Adds [v] to the group of [k] in a series kept sorted by label. *)
Fixpoint group_add (k : string) (v : Q) (s : Series) : Series :=
  match s with
  | [] => [(k, 0 + v)%Q]
  | (k', v') :: s' =>
      match String.compare k k' with
      | Lt => (k, 0 + v)%Q :: s
      | Eq => (k', v' + v)%Q :: s'
      | Gt => (k', v') :: group_add k v s'
      end
  end.

(** [df.groupby(key)["Montant"].sum()]: one entry per distinct key, labels in
    increasing string order, amounts added in frame order. *)
Definition groupby_sum (key : Ecriture -> string) (df : DataFrame) : Series :=
  fold_left (fun s r => group_add (key r) (Montant r) s) df [].

Fixpoint lookup (k : string) (s : Series) : option Q :=
  match s with
  | [] => None
  | (k', v) :: s' => if String.eqb k k' then Some v else lookup k s'
  end.

Definition mem (k : string) (idx : list string) : bool :=
  existsb (String.eqb k) idx.

(** Index of [pd.concat([a, b], axis=1)]: the labels of [a], then the labels
    of [b] that [a] does not have. *)
Definition union_index (a b : Series) : list string :=
  map fst a ++ filter (fun k => negb (mem k (map fst a))) (map fst b).

(** [pd.concat([debits, credits], axis=1)]: a missing cell is NaN ([None]). *)
Definition concat_axis1 (debits credits : Series)
  : list (string * (option Q * option Q)) :=
  map (fun k => (k, (lookup k debits, lookup k credits)))
      (union_index debits credits).

Definition fillna (v : Q) (cell : option Q) : Q :=
  match cell with
  | Some x => x
  | None => v
  end.

(** [.fillna(0)] followed by the assignment of the column [Final_Balance]. *)
Definition with_final_balance (row : option Q * option Q) : Balance :=
  let d := fillna 0 (fst row) in
  let c := fillna 0 (snd row) in
  {| Total_Debit := d; Total_Credit := c; Final_Balance := (d - c)%Q |}.

Definition int64_min : Z := (- 2 ^ 63)%Z.
Definition int64_max : Z := (2 ^ 63 - 1)%Z.

(** One label through [astype(int)]. *)
Definition label_to_int64 (k : string) : result Z :=
  match Py.int k with
  | None => Raise ValueError
  | Some n =>
      if ((int64_min <=? n) && (n <=? int64_max))%Z then Ok n
      else Raise OverflowError
  end.

(** [frame.index = frame.index.astype(int)]: the first label that fails
    decides the exception. *)
Fixpoint index_astype_int {A} (frame : list (string * A))
  : result (list (Z * A)) :=
  match frame with
  | [] => Ok []
  | (k, row) :: rest =>
      bind (label_to_int64 k) (fun n =>
      bind (index_astype_int rest) (fun rest' => Ok ((n, row) :: rest')))
  end.

Fixpoint insert_sorted {A} (x : Z * A) (l : list (Z * A)) : list (Z * A) :=
  match l with
  | [] => [x]
  | y :: l' => if (fst x <=? fst y)%Z then x :: l else y :: insert_sorted x l'
  end.

(** [frame.sort_index()] on an integer index. *)
Definition sort_index {A} (frame : list (Z * A)) : list (Z * A) :=
  fold_right insert_sorted [] frame.

(** [frame.index = frame.index.astype(str)]. *)
Definition index_astype_str {A} (frame : list (Z * A)) : list (string * A) :=
  map (fun e => (Py.str (fst e), snd e)) frame.

(** ** [calculate_balance_by_account] *)

(** Steps 1 to 4: the frame before its index is sorted. *)
Definition balance_before_sort (df : DataFrame) : BalanceFrame :=
  let debits := groupby_sum Compte_Debit df in
  let credits := groupby_sum Compte_Credit df in
  map (fun e => (fst e, with_final_balance (snd e)))
      (concat_axis1 debits credits).

Definition calculate_balance_by_account (df : DataFrame)
  : result BalanceFrame :=
  let balance_df := balance_before_sort df in
  bind (index_astype_int balance_df) (fun by_number =>
  Ok (index_astype_str (sort_index by_number))).

(** ** [calculate_net_income] *)

Definition startswith (p : string) (s : string) : bool := String.prefix p s.

Definition sumQ (l : list Q) : Q := fold_left Qplus l 0%Q.

(** Python's [round(x, 2)] on an exact value: nearest multiple of 1/100,
    ties to the even multiple. *)
Definition round_half_even (x : Q) : Z :=
  let fl := Qfloor x in
  match Qcompare (x - inject_Z fl) (1 # 2) with
  | Lt => fl
  | Gt => (fl + 1)%Z
  | Eq => if Z.even fl then fl else (fl + 1)%Z
  end.

Definition round2 (x : Q) : Q := Qmake (round_half_even (x * 100)) 100.

Definition calculate_net_income (balance_df : BalanceFrame) : IncomeStatement :=
  let income_expense_df :=
    filter (fun e => startswith "6" (fst e) || startswith "7" (fst e))
           balance_df in
  let total_products :=
    sumQ (map (fun e => Total_Credit (snd e))
              (filter (fun e => startswith "7" (fst e)) income_expense_df)) in
  let total_charges :=
    sumQ (map (fun e => Total_Debit (snd e))
              (filter (fun e => startswith "6" (fst e)) income_expense_df)) in
  let net_income := (total_products - total_charges)%Q in
  {| Total_Products := round2 total_products;
     Total_Charges := round2 total_charges;
     Net_Income := round2 net_income |}.

(** ** The integrity check of the main block *)

(** [Montant.where(mask).sum()]: the rows outside the mask become NaN and the
    sum skips them. *)
Definition sum_where (mask : Ecriture -> bool) (df : DataFrame) : Q :=
  sumQ (map Montant (filter mask df)).

Record Integrity := {
  total_debits : Q;
  total_credits : Q;
  difference : Q
}.

Definition integrity_check (df : DataFrame) (index : list string)
  : Integrity :=
  let td := sum_where (fun row => mem (Compte_Debit row) index) df in
  let tc := sum_where (fun row => mem (Compte_Credit row) index) df in
  {| total_debits := td; total_credits := tc; difference := (td - tc)%Q |}.

(** The main block: the General Balance, the income statement, and the
    integrity check against the index of the General Balance. *)
Definition main (GRAND_LIVRE : DataFrame)
  : result (BalanceFrame * IncomeStatement * Integrity) :=
  bind (calculate_balance_by_account GRAND_LIVRE) (fun balance_sheet =>
  let income_statement_results := calculate_net_income balance_sheet in
  Ok (balance_sheet, income_statement_results,
      integrity_check GRAND_LIVRE (map fst balance_sheet))).

(** ** Ledgers used in the examples *)

Definition ecriture (debit credit : string) (montant : Q) : Ecriture :=
  {| Date := "2024-01-01"; Compte_Debit := debit; Compte_Credit := credit;
     Montant := montant; Libelle := ""; ID_Transaction := 0%Z |}.

Definition scenario : DataFrame :=
  [ ecriture "411" "707" 1000; ecriture "607" "401" 500 ].

(** ** Notions used in the statements *)

(** Every account code written in the ledger, debit side first. *)
Definition accounts (df : DataFrame) : list string :=
  map Compte_Debit df ++ map Compte_Credit df.

(** Order of the labels of a grouping. *)
Definition label_lt (a b : string) : Prop := String.compare a b = Lt.

(** [e'] is the line [e] after [astype(int)] on its label. *)
Definition relabelled {A} (e : string * A) (e' : Z * A) : Prop :=
  label_to_int64 (fst e) = Ok (fst e') /\ snd e = snd e'.

(** Order of the lines of a frame indexed by account number. *)
Definition number_le {A} (x y : Z * A) : Prop := (fst x <= fst y)%Z.

(** [a] and [b] both read as integers, and [a]'s is not above [b]'s. *)
Definition account_number_le (a b : string) : Prop :=
  exists x y, Py.int a = Some x /\ Py.int b = Some y /\ (x <= y)%Z.

(** The label reads as a non-negative integer. *)
Definition parses_non_negative (id : string) : Prop :=
  exists n, Py.int id = Some n /\ (0 <= n)%Z.

(** The label is the decimal writing Python prints for a non-negative
    integer: digits only, no leading zero, no sign, blank or underscore. *)
Definition canonical (id : string) : Prop :=
  exists n, (0 <= n)%Z /\ id = Py.str n.

(** The label reads as a non-negative integer that a signed 64-bit integer
    holds. *)
Definition parses_int64_non_negative (id : string) : Prop :=
  exists n, Py.int id = Some n /\ (0 <= n <= int64_max)%Z.

(** The General Balance of [scenario]. *)
Definition scenario_balance : BalanceFrame :=
  [ ("401", {| Total_Debit := 0; Total_Credit := 500;
               Final_Balance := -500 |});
    ("411", {| Total_Debit := 1000; Total_Credit := 0;
               Final_Balance := 1000 |});
    ("607", {| Total_Debit := 500; Total_Credit := 0;
               Final_Balance := 500 |});
    ("707", {| Total_Debit := 0; Total_Credit := 1000;
               Final_Balance := -1000 |}) ].

(** Ledgers whose labels are not in canonical writing, or too large. *)
Definition leading_zero_debit : DataFrame := [ ecriture "0411" "707" 100 ].

Definition leading_zero_credit : DataFrame := [ ecriture "607" "0401" 500 ].

Definition leading_zero_sale : DataFrame :=
  [ ecriture "0411" "707" 1000; ecriture "607" "401" 500 ].

Definition beyond_int64 : DataFrame :=
  [ ecriture "9223372036854775808" "707" 100 ].

Definition malformed : DataFrame := [ ecriture "6O7" "401" 500 ].


Definition class_6 (e : string * Balance) : bool := startswith "6" (fst e).

Definition class_7 (e : string * Balance) : bool := startswith "7" (fst e).

(** Sum of [Total_Credit] over the accounts of class 7. *)
Definition class_7_credits (balance_df : BalanceFrame) : Q :=
  sumQ (map (fun e => Total_Credit (snd e)) (filter class_7 balance_df)).

(** Sum of [Total_Debit] over the accounts of class 6. *)
Definition class_6_debits (balance_df : BalanceFrame) : Q :=
  sumQ (map (fun e => Total_Debit (snd e)) (filter class_6 balance_df)).

(** A ledger without income or expense, and its General Balance. *)
Definition client_payment : DataFrame := [ ecriture "512" "411" 300 ].

Definition client_payment_balance : BalanceFrame :=
  [ ("411", {| Total_Debit := 0; Total_Credit := 300;
               Final_Balance := -300 |});
    ("512", {| Total_Debit := 300; Total_Credit := 0;
               Final_Balance := 300 |}) ].

(** A frame that agrees with [scenario_balance] on the credits of class 7
    and on the debits of class 6 only. *)
Definition scenario_variant : BalanceFrame :=
  [ ("512", {| Total_Debit := 42; Total_Credit := 7; Final_Balance := 35 |});
    ("607", {| Total_Debit := 500; Total_Credit := 99;
               Final_Balance := 0 |});
    ("707", {| Total_Debit := 77; Total_Credit := 2000 # 2;
               Final_Balance := 5 |}) ].

(** Two frames list the same accounts of one class, in the same order, with
    equal amounts in the column [col]. *)
Definition agree_on (class : string * Balance -> bool) (col : Balance -> Q)
           (b1 b2 : BalanceFrame) : Prop :=
  Forall2 (fun e1 e2 => fst e1 = fst e2 /\ col (snd e1) == col (snd e2))
          (filter class b1) (filter class b2).

(** [x] is a whole number of hundredths. *)
Definition two_place_decimal (x : Q) : Prop :=
  exists k : Z, x == inject_Z k * (1 # 100).

(** Value of a digit sequence read after the accumulator [acc]. *)
Fixpoint uint_value (d : Decimal.uint) (acc : Z) : Z :=
  match d with
  | Decimal.Nil => acc
  | Decimal.D0 l => uint_value l (10 * acc + 0)
  | Decimal.D1 l => uint_value l (10 * acc + 1)
  | Decimal.D2 l => uint_value l (10 * acc + 2)
  | Decimal.D3 l => uint_value l (10 * acc + 3)
  | Decimal.D4 l => uint_value l (10 * acc + 4)
  | Decimal.D5 l => uint_value l (10 * acc + 5)
  | Decimal.D6 l => uint_value l (10 * acc + 6)
  | Decimal.D7 l => uint_value l (10 * acc + 7)
  | Decimal.D8 l => uint_value l (10 * acc + 8)
  | Decimal.D9 l => uint_value l (10 * acc + 9)
  end%Z.


(** * The ledger generator ([data_generator.py]) *)

(** ** Python's [date], [timedelta] and [isoformat] *)

Module Datetime.

Definition is_leap (year : Z) : bool :=
  ((year mod 4 =? 0)
   && (negb (year mod 100 =? 0) || (year mod 400 =? 0)))%Z.

Definition days_before_year (year : Z) : Z :=
  let y := (year - 1)%Z in
  (y * 365 + y / 4 - y / 100 + y / 400)%Z.

Definition DAYS_IN_MONTH : list Z :=
  [-1; 31; 28; 31; 30; 31; 30; 31; 31; 30; 31; 30; 31]%Z.

Definition DAYS_BEFORE_MONTH : list Z :=
  [-1; 0; 31; 59; 90; 120; 151; 181; 212; 243; 273; 304; 334]%Z.

Definition days_before_month (year month : Z) : Z :=
  (nth (Z.to_nat month) DAYS_BEFORE_MONTH 0
   + (if (2 <? month) && is_leap year then 1 else 0))%Z.

Record date := { year : Z; month : Z; day : Z }.

Definition toordinal (d : date) : Z :=
  (days_before_year (year d) + days_before_month (year d) (month d)
   + day d)%Z.

Definition DI400Y : Z := days_before_year 401.
Definition DI100Y : Z := days_before_year 101.
Definition DI4Y : Z := days_before_year 5.

(** [date.fromordinal]: the day number [n], counted from 0001-01-01 = 1. *)
Definition fromordinal (n : Z) : date :=
  let n := (n - 1)%Z in
  let n400 := (n / DI400Y)%Z in
  let n := (n mod DI400Y)%Z in
  let y := (n400 * 400 + 1)%Z in
  let n100 := (n / DI100Y)%Z in
  let n := (n mod DI100Y)%Z in
  let n4 := (n / DI4Y)%Z in
  let n := (n mod DI4Y)%Z in
  let n1 := (n / 365)%Z in
  let n := (n mod 365)%Z in
  let y := (y + n100 * 100 + n4 * 4 + n1)%Z in
  if ((n1 =? 4) || (n100 =? 4))%Z then
    {| year := (y - 1)%Z; month := 12%Z; day := 31%Z |}
  else
    let leapyear := ((n1 =? 3) && (negb (n4 =? 24) || (n100 =? 3)))%Z in
    let m := Z.shiftr (n + 50) 5 in
    let preceding :=
      (nth (Z.to_nat m) DAYS_BEFORE_MONTH 0
       + (if (2 <? m) && leapyear then 1 else 0))%Z in
    if (n <? preceding)%Z then
      let m' := (m - 1)%Z in
      let preceding' :=
        (preceding
         - (nth (Z.to_nat m') DAYS_IN_MONTH 0
            + (if (m' =? 2) && leapyear then 1 else 0)))%Z in
      {| year := y; month := m'; day := (n - preceding' + 1)%Z |}
    else
      {| year := y; month := m; day := (n - preceding + 1)%Z |}.

Definition MAXORDINAL : Z := 3652059.

(** [timedelta(days=n)]; the number of days is bounded. *)
Definition timedelta (days : Z) : result Z :=
  if ((-999999999 <=? days) && (days <=? 999999999))%Z then Ok days
  else Raise OverflowError.

(** [d + delta] for a date and a whole number of days. *)
Definition add (d : date) (delta : Z) : result date :=
  let o := (toordinal d + delta)%Z in
  if ((0 <? o) && (o <=? MAXORDINAL))%Z then Ok (fromordinal o)
  else Raise OverflowError.

(** Decimal writing of a non-negative number, padded with zeros on the left
    up to [width] characters. *)
Definition zero_padded (width : nat) (n : Z) : string :=
  let s := Py.str n in
  String.concat "" (repeat "0" (width - String.length s)) ++ s.

(** [d.isoformat()]: ["%04d-%02d-%02d"]. *)
Definition isoformat (d : date) : string :=
  zero_padded 4 (year d) ++ "-" ++ zero_padded 2 (month d) ++ "-"
  ++ zero_padded 2 (day d).

End Datetime.

(** ** The table of transaction types *)

Record Logic := { debit : Z; credit : Z }.

Definition TRANSACTIONS_LOGIC : list (string * Logic) :=
  [ ("Sales of Goods", {| debit := 411; credit := 707 |});
    ("Purchase of Goods", {| debit := 607; credit := 401 |});
    ("Client Payment Received", {| debit := 512; credit := 411 |});
    ("Supplier Payment Made", {| debit := 401; credit := 512 |});
    ("Bank Fees", {| debit := 627; credit := 512 |});
    ("Payroll Payment", {| debit := 641; credit := 512 |}) ].

(** ** One turn of the loop *)

(** What the random sources hand to one turn of the loop. *)
Record Draw := {
  choice : string * Logic;  (* random.choice(list(TRANSACTIONS_LOGIC.items())) *)
  randint : Z;              (* random.randint(0, 365) *)
  uniform : Q;              (* random.uniform(50, 5000) *)
  company : string;         (* fake.company() *)
  name : string             (* fake.name() *)
}.

(** The contract of [random.choice], [random.randint] and
    [random.uniform] for the arguments the generator passes. *)
Definition draw_in_contract (t : Draw) : Prop :=
  In (choice t) TRANSACTIONS_LOGIC
  /\ (0 <= randint t <= 365)%Z
  /\ 50 <= uniform t /\ uniform t <= 5000.

(** An element of [records]: the accounts are still integers. *)
Record RawRecord := {
  raw_Date : string;
  raw_Compte_Debit : Z;
  raw_Compte_Credit : Z;
  raw_Montant : Q;
  raw_Libelle : string;
  raw_ID_Transaction : Z
}.

Definition start_date : Datetime.date :=
  {| Datetime.year := 2024; Datetime.month := 1; Datetime.day := 1 |}.

Definition full_libelle_of (libelle_type : string) (i : Z) (t : Draw)
  : string :=
  if String.eqb libelle_type "Sales of Goods" then
    "Facture Vente n°V" ++ Py.str i ++ " " ++ company t
  else if String.eqb libelle_type "Purchase of Goods" then
    "Facture Achat n°A" ++ Py.str i ++ " auprès de " ++ company t
  else if String.eqb libelle_type "Client Payment Received" then
    "Virement client " ++ name t
  else if String.eqb libelle_type "Supplier Payment Made" then
    "Règlement fournisseur " ++ name t
  else libelle_type.

(** The body of the loop for the turn [i]. *)
Definition one_record (i : Z) (t : Draw) : result RawRecord :=
  let libelle_type := fst (choice t) in
  let logic := snd (choice t) in
  bind (Datetime.timedelta (randint t)) (fun delta =>
  bind (Datetime.add start_date delta) (fun d =>
  let transaction_date := Datetime.isoformat d in
  let montant := round2 (uniform t) in
  let full_libelle := full_libelle_of libelle_type i t in
  Ok {| raw_Date := transaction_date;
        raw_Compte_Debit := debit logic;
        raw_Compte_Credit := credit logic;
        raw_Montant := montant;
        raw_Libelle := full_libelle;
        raw_ID_Transaction := i |})).

(** [for i in range(1, num_entries + 1)], the turn [i] fed by [rng i]. *)
Fixpoint records_loop (rng : Z -> Draw) (turns : list Z)
  : result (list RawRecord) :=
  match turns with
  | [] => Ok []
  | i :: rest =>
      bind (one_record i (rng i)) (fun r =>
      bind (records_loop rng rest) (fun rs => Ok (r :: rs)))
  end.

(** [range(1, num_entries + 1)]. *)
Definition turns_of (num_entries : Z) : list Z :=
  map Z.of_nat (seq 1 (Z.to_nat num_entries)).

(** [df[["Compte_Debit", "Compte_Credit"]].astype(str)] on one line. *)
Definition accounts_astype_str (r : RawRecord) : Ecriture :=
  {| Date := raw_Date r;
     Compte_Debit := Py.str (raw_Compte_Debit r);
     Compte_Credit := Py.str (raw_Compte_Credit r);
     Montant := raw_Montant r;
     Libelle := raw_Libelle r;
     ID_Transaction := raw_ID_Transaction r |}.

Definition generate_grand_livre (rng : Z -> Draw) (num_entries : Z)
  : result DataFrame :=
  bind (records_loop rng (turns_of num_entries)) (fun records =>
  Ok (map accounts_astype_str records)).

(** A source of draws used in the examples: the turn [i] takes the item
    [i mod 6] of the table, the day [i], and 50 + i/8. *)
Definition sample_rng (i : Z) : Draw :=
  {| choice := nth (Z.to_nat (i mod 6)) TRANSACTIONS_LOGIC
                   ("Bank Fees", {| debit := 627; credit := 512 |});
     randint := (i mod 366)%Z;
     uniform := 50 + inject_Z i / 8;
     company := "Martin SARL";
     name := "Luce Petit" |}.

(** ** Notions used in the further properties *)






(** The account pairs of [TRANSACTIONS_LOGIC], as the ledger prints them. *)
Definition table_pairs : list (string * string) :=
  [ ("411", "707"); ("607", "401"); ("512", "411");
    ("401", "512"); ("627", "512"); ("641", "512") ].

(** The seven accounts of [TRANSACTIONS_LOGIC]. *)
Definition table_accounts : list string :=
  [ "401"; "411"; "512"; "607"; "627"; "641"; "707" ].


(** ** Facts on [Py.int] and [Py.str] *)

Module PyFacts.
Import Decimal.

Lemma digits_string_of_uint d :
  forall acc, Py.digits (NilEmpty.string_of_uint d) acc true
              = Some (uint_value d acc).
Proof.
  induction d; intro acc; simpl; try reflexivity; apply IHd.
Qed.

Lemma digits_string_of_uint_first d acc :
  d <> Nil ->
  Py.digits (NilEmpty.string_of_uint d) acc false = Some (uint_value d acc).
Proof.
  destruct d; intro H; try congruence; simpl; apply digits_string_of_uint.
Qed.

Lemma of_uint_acc_value d :
  forall p, Z.pos (Pos.of_uint_acc d p) = uint_value d (Z.pos p).
Proof.
  induction d; intro p; cbn [Pos.of_uint_acc uint_value]; try reflexivity;
    rewrite IHd; f_equal; lia.
Qed.

Lemma of_uint_value d : Z.of_uint d = uint_value d 0.
Proof.
  unfold Z.of_uint.
  induction d; cbn [Pos.of_uint uint_value]; try reflexivity; try assumption;
    rewrite N2Z.inj_pos, of_uint_acc_value; reflexivity.
Qed.

Lemma rstrip_string_of_uint d :
  Py.rstrip (NilEmpty.string_of_uint d) = NilEmpty.string_of_uint d.
Proof.
  induction d; simpl; try reflexivity; rewrite IHd;
    destruct (NilEmpty.string_of_uint d); reflexivity.
Qed.

Lemma lstrip_string_of_uint d :
  Py.lstrip (NilEmpty.string_of_uint d) = NilEmpty.string_of_uint d.
Proof. destruct d; reflexivity. Qed.

Lemma int_string_of_uint d :
  d <> Nil ->
  Py.int (NilEmpty.string_of_uint d) = Some (Z.of_uint d).
Proof.
  intro H. unfold Py.int, Py.strip.
  rewrite lstrip_string_of_uint, rstrip_string_of_uint, of_uint_value.
  destruct d; try congruence; simpl; apply digits_string_of_uint.
Qed.

Lemma int_minus_string_of_uint d :
  d <> Nil ->
  Py.int (String "-" (NilEmpty.string_of_uint d)) = Some (- Z.of_uint d)%Z.
Proof.
  intro H. unfold Py.int, Py.strip.
  change (Py.lstrip (String "-" (NilEmpty.string_of_uint d)))
    with (String "-" (NilEmpty.string_of_uint d)).
  assert (E : Py.rstrip (String "-" (NilEmpty.string_of_uint d))
              = String "-" (NilEmpty.string_of_uint d)).
  { simpl. rewrite rstrip_string_of_uint.
    destruct (NilEmpty.string_of_uint d); reflexivity. }
  rewrite E, digits_string_of_uint_first, of_uint_value by assumption.
  reflexivity.
Qed.

(** [int(str(n)) == n] for every integer. *)
Lemma int_str (n : Z) : Py.int (Py.str n) = Some n.
Proof.
  unfold Py.str.
  rewrite <- (DecimalZ.of_to n) at 2.
  destruct n as [ | p | p ]; simpl Z.to_int.
  - reflexivity.
  - apply int_string_of_uint, DecimalPos.Unsigned.to_uint_nonnil.
  - apply int_minus_string_of_uint, DecimalPos.Unsigned.to_uint_nonnil.
Qed.

Lemma str_inj (n m : Z) : Py.str n = Py.str m -> n = m.
Proof.
  intro H. apply (f_equal Py.int) in H.
  rewrite !int_str in H. congruence.
Qed.

End PyFacts.

(** ** Sums of amounts *)

Lemma fold_left_Qplus (l : list Q) :
  forall a, fold_left Qplus l a == a + sumQ l.
Proof.
  unfold sumQ. induction l as [ | x l IH ]; intro a; simpl.
  - ring.
  - rewrite (IH (a + x)), (IH (0 + x)). ring.
Qed.

Lemma sumQ_nil : sumQ [] == 0.
Proof. reflexivity. Qed.

Lemma sumQ_cons (x : Q) (l : list Q) : sumQ (x :: l) == x + sumQ l.
Proof.
  unfold sumQ at 1. simpl. rewrite fold_left_Qplus. ring.
Qed.




(** ** Membership and lookup *)

Lemma mem_In (k : string) (idx : list string) : mem k idx = true <-> In k idx.
Proof.
  unfold mem. rewrite existsb_exists. split.
  - intros [x [Hx E]]. apply String.eqb_eq in E. now subst.
  - intro H. exists k. split; [ assumption | apply String.eqb_refl ].
Qed.

Lemma mem_false (k : string) (idx : list string) :
  mem k idx = false <-> ~ In k idx.
Proof.
  rewrite <- mem_In. destruct (mem k idx); split; congruence.
Qed.

Lemma lookup_None (k : string) (s : Series) :
  ~ In k (map fst s) -> lookup k s = None.
Proof.
  induction s as [ | [k' v] s IH ]; simpl; intro H.
  - reflexivity.
  - destruct (String.eqb_spec k k') as [ E | _ ].
    + exfalso. apply H. now left.
    + apply IH. intro. apply H. now right.
Qed.



(** ** [groupby(...).sum()] *)

Lemma label_lt_trans (a b c : string) :
  label_lt a b -> label_lt b c -> label_lt a c.
Proof.
  unfold label_lt. change String.compare with String_as_OT.cmp.
  rewrite !String_as_OT.cmp_lt. apply String_as_OT.lt_trans.
Qed.

Lemma label_lt_irrefl (a : string) : ~ label_lt a a.
Proof.
  unfold label_lt. intro H.
  assert (E : String_as_OT.cmp a a = Eq) by now apply String_as_OT.cmp_eq.
  unfold String_as_OT.cmp in E. congruence.
Qed.

Lemma label_gt_lt (a b : string) : String.compare a b = Gt -> label_lt b a.
Proof.
  unfold label_lt. intro H. rewrite String.compare_antisym, H. reflexivity.
Qed.

Lemma sorted_labels_NoDup (l : list string) :
  StronglySorted label_lt l -> NoDup l.
Proof.
  induction 1 as [ | a l _ IH Ha ]; constructor; [ | assumption ].
  intro Hin. rewrite Forall_forall in Ha.
  exact (label_lt_irrefl a (Ha a Hin)).
Qed.

Lemma group_add_labels (k : string) (v : Q) (s : Series) (x : string) :
  In x (map fst (group_add k v s)) <-> x = k \/ In x (map fst s).
Proof.
  induction s as [ | [k' v'] s IH ]; simpl.
  - intuition.
  - destruct (String.compare k k') eqn:E; simpl.
    + apply String.compare_eq_iff in E. subst. intuition.
    + intuition.
    + rewrite IH. intuition.
Qed.

Lemma group_add_sorted (k : string) (v : Q) (s : Series) :
  StronglySorted label_lt (map fst s) ->
  StronglySorted label_lt (map fst (group_add k v s)).
Proof.
  induction s as [ | [k' v'] s IH ]; simpl; intro H.
  - repeat constructor.
  - inversion H as [ | ? ? Hs Hk' ]; subst.
    destruct (String.compare k k') eqn:E; simpl.
    + assumption.
    + constructor; [ assumption | ]. constructor; [ exact E | ].
      eapply Forall_impl; [ | exact Hk' ].
      intros x Hx. exact (label_lt_trans _ _ _ E Hx).
    + constructor; [ now apply IH | ].
      rewrite Forall_forall in *. intros x Hx.
      apply group_add_labels in Hx. destruct Hx as [ -> | Hx ].
      * now apply label_gt_lt.
      * now apply Hk'.
Qed.


Section Groupby.

Variable key : Ecriture -> string.

Let step (s : Series) (r : Ecriture) : Series :=
  group_add (key r) (Montant r) s.

Lemma fold_group_labels (df : DataFrame) :
  forall s x, In x (map fst (fold_left step df s))
              <-> In x (map key df) \/ In x (map fst s).
Proof.
  induction df as [ | r df IH ]; intros s x; simpl.
  - intuition.
  - rewrite IH. unfold step. rewrite group_add_labels. intuition.
Qed.

Lemma fold_group_sorted (df : DataFrame) :
  forall s, StronglySorted label_lt (map fst s) ->
            StronglySorted label_lt (map fst (fold_left step df s)).
Proof.
  induction df as [ | r df IH ]; intros s H; simpl.
  - assumption.
  - apply IH. now apply group_add_sorted.
Qed.


(** The labels of a grouping are the keys met in the frame. *)
Lemma groupby_sum_labels (df : DataFrame) (x : string) :
  In x (map fst (groupby_sum key df)) <-> In x (map key df).
Proof.
  unfold groupby_sum. fold step. rewrite fold_group_labels. simpl. intuition.
Qed.

Lemma groupby_sum_NoDup (df : DataFrame) :
  NoDup (map fst (groupby_sum key df)).
Proof.
  apply sorted_labels_NoDup. unfold groupby_sum. fold step.
  apply fold_group_sorted. constructor.
Qed.


End Groupby.

(** ** The union of the two groupings *)

Lemma union_index_In (a b : Series) (x : string) :
  In x (union_index a b) <-> In x (map fst a) \/ In x (map fst b).
Proof.
  unfold union_index. rewrite in_app_iff, filter_In, negb_true_iff, mem_false.
  destruct (in_dec string_dec x (map fst a)); tauto.
Qed.

Lemma union_index_NoDup (a b : Series) :
  NoDup (map fst a) -> NoDup (map fst b) -> NoDup (union_index a b).
Proof.
  intros Ha Hb. unfold union_index.
  apply NoDup_app; [ assumption | now apply NoDup_filter | ].
  intros k Hk Hr. apply filter_In in Hr. destruct Hr as [_ Hr].
  apply negb_true_iff, mem_false in Hr. contradiction.
Qed.

Lemma balance_before_sort_index (df : DataFrame) :
  map fst (balance_before_sort df)
  = union_index (groupby_sum Compte_Debit df) (groupby_sum Compte_Credit df).
Proof.
  unfold balance_before_sort, concat_axis1. rewrite !map_map. simpl.
  apply map_id.
Qed.

Lemma balance_before_sort_In (df : DataFrame) (x : string) :
  In x (map fst (balance_before_sort df)) <-> In x (accounts df).
Proof.
  rewrite balance_before_sort_index, union_index_In, !groupby_sum_labels.
  unfold accounts. now rewrite in_app_iff.
Qed.

Lemma balance_before_sort_NoDup (df : DataFrame) :
  NoDup (map fst (balance_before_sort df)).
Proof.
  rewrite balance_before_sort_index.
  apply union_index_NoDup; apply groupby_sum_NoDup.
Qed.




(** ** The total of one account *)

Lemma sorted_head_absent (k k' : string) (l : list string) :
  label_lt k k' -> StronglySorted label_lt (k' :: l) -> ~ In k (k' :: l).
Proof.
  intros Hlt Hs [ -> | Hin ].
  - exact (label_lt_irrefl k Hlt).
  - inversion Hs as [ | ? ? _ Hall ]; subst. rewrite Forall_forall in Hall.
    exact (label_lt_irrefl k (label_lt_trans _ _ _ Hlt (Hall k Hin))).
Qed.

Lemma lookup_group_add_same (k : string) (v : Q) (s : Series) :
  StronglySorted label_lt (map fst s) ->
  lookup k (group_add k v s) = Some (fillna 0 (lookup k s) + v).
Proof.
  induction s as [ | [k' v'] s IH ]; intro H.
  - simpl. now rewrite String.eqb_refl.
  - cbn [group_add]. destruct (String.compare k k') eqn:E.
    + apply String.compare_eq_iff in E. subst. simpl.
      now rewrite String.eqb_refl.
    + rewrite (lookup_None k ((k', v') :: s)
                 (sorted_head_absent k k' _ E H)).
      simpl. now rewrite String.eqb_refl.
    + simpl. destruct (String.eqb_spec k k') as [ -> | _ ].
      * exfalso. apply label_gt_lt in E. exact (label_lt_irrefl k' E).
      * apply IH. now inversion H.
Qed.

Lemma lookup_group_add_other (k k0 : string) (v : Q) (s : Series) :
  k0 <> k -> lookup k0 (group_add k v s) = lookup k0 s.
Proof.
  intro Hne. induction s as [ | [k' v'] s IH ]; simpl.
  - destruct (String.eqb_spec k0 k); [ contradiction | reflexivity ].
  - destruct (String.compare k k') eqn:E; simpl.
    + apply String.compare_eq_iff in E. subst k'.
      destruct (String.eqb_spec k0 k); [ contradiction | reflexivity ].
    + destruct (String.eqb_spec k0 k); [ contradiction | reflexivity ].
    + now rewrite IH.
Qed.

Section GroupTotals.

Variable key : Ecriture -> string.

Let step (s : Series) (r : Ecriture) : Series :=
  group_add (key r) (Montant r) s.

Lemma fold_group_lookup (k : string) (df : DataFrame) :
  forall s,
    StronglySorted label_lt (map fst s) ->
    fillna 0 (lookup k (fold_left step df s))
    == fillna 0 (lookup k s)
       + sumQ (map Montant (filter (fun r => String.eqb (key r) k) df)).
Proof.
  induction df as [ | r df IH ]; intros s Hs; simpl.
  - rewrite sumQ_nil. ring.
  - rewrite IH by now apply group_add_sorted.
    unfold step. destruct (String.eqb_spec (key r) k) as [ E | Hne ].
    + rewrite E, lookup_group_add_same by assumption. simpl.
      rewrite sumQ_cons. ring.
    + rewrite lookup_group_add_other by congruence. reflexivity.
Qed.

(** The cell of account [k] in a grouping, 0 when it is missing, is the sum
    of [Montant] over the lines whose key is [k]. *)
Lemma groupby_sum_account (k : string) (df : DataFrame) :
  fillna 0 (lookup k (groupby_sum key df))
  == sumQ (map Montant (filter (fun r => String.eqb (key r) k) df)).
Proof.
  unfold groupby_sum. fold step.
  rewrite fold_group_lookup by constructor. simpl. ring.
Qed.

End GroupTotals.

(** ** Sorting the index by account number *)

Lemma index_astype_int_Ok {A} (frame : list (string * A)) :
  forall by_number,
    index_astype_int frame = Ok by_number ->
    Forall2 relabelled frame by_number.
Proof.
  induction frame as [ | [k row] rest IH ]; simpl; intros g H.
  - injection H as <-. constructor.
  - destruct (label_to_int64 k) as [ n | e ] eqn:Hk; simpl in H;
      [ | discriminate ].
    destruct (index_astype_int rest) as [ rest' | e ]; simpl in H;
      [ | discriminate ].
    injection H as <-. constructor; [ now split | now apply IH ].
Qed.

Lemma index_astype_int_total {A} (frame : list (string * A)) :
  (forall k, In k (map fst frame) -> exists n, label_to_int64 k = Ok n) ->
  exists by_number, index_astype_int frame = Ok by_number.
Proof.
  induction frame as [ | [k row] rest IH ]; simpl; intro H.
  - now exists [].
  - destruct (H k (or_introl eq_refl)) as [n Hn].
    destruct IH as [rest' Hrest]; [ intros; apply H; now right | ].
    exists ((n, row) :: rest'). now rewrite Hn, Hrest.
Qed.

Lemma index_astype_int_Raise {A} (frame : list (string * A)) (k : string)
      (e : exn) :
  In k (map fst frame) -> label_to_int64 k = Raise e ->
  exists e', index_astype_int frame = Raise e'.
Proof.
  induction frame as [ | [k' row] rest IH ]; simpl; intros Hin Hk.
  - contradiction.
  - destruct (label_to_int64 k') as [ n | e0 ] eqn:Hk'; simpl;
      [ | now exists e0 ].
    destruct Hin as [ -> | Hin ]; [ congruence | ].
    destruct (IH Hin Hk) as [e' ->]. now exists e'.
Qed.

Lemma relabelled_rows {A} (frame : list (string * A)) by_number :
  Forall2 relabelled frame by_number -> map snd by_number = map snd frame.
Proof.
  induction 1 as [ | e e' f g [_ Hs] _ IH ]; simpl; congruence.
Qed.

Lemma relabelled_In {A} (frame : list (string * A)) by_number :
  Forall2 relabelled frame by_number ->
  forall e', In e' by_number ->
  exists e, In e frame /\ relabelled e e'.
Proof.
  induction 1 as [ | e e' f g He _ IH ]; simpl; intros x Hx.
  - contradiction.
  - destruct Hx as [ <- | Hx ].
    + exists e. now split; [ left | ].
    + destruct (IH x Hx) as [y [Hy Hr]]. exists y. now split; [ right | ].
Qed.

Lemma relabelled_In_inv {A} (frame : list (string * A)) by_number :
  Forall2 relabelled frame by_number ->
  forall e, In e frame ->
  exists e', In e' by_number /\ relabelled e e'.
Proof.
  induction 1 as [ | e e' f g He _ IH ]; simpl; intros x Hx.
  - contradiction.
  - destruct Hx as [ <- | Hx ].
    + exists e'. now split; [ left | ].
    + destruct (IH x Hx) as [y [Hy Hr]]. exists y. now split; [ right | ].
Qed.

Lemma insert_sorted_Permutation {A} (x : Z * A) (l : list (Z * A)) :
  Permutation (insert_sorted x l) (x :: l).
Proof.
  induction l as [ | y l IH ]; simpl.
  - reflexivity.
  - destruct (fst x <=? fst y)%Z.
    + reflexivity.
    + rewrite IH. apply perm_swap.
Qed.

Lemma sort_index_Permutation {A} (frame : list (Z * A)) :
  Permutation (sort_index frame) frame.
Proof.
  induction frame as [ | x l IH ]; simpl.
  - reflexivity.
  - rewrite insert_sorted_Permutation. now constructor.
Qed.

Lemma insert_sorted_sorted {A} (x : Z * A) (l : list (Z * A)) :
  StronglySorted number_le l -> StronglySorted number_le (insert_sorted x l).
Proof.
  induction l as [ | y l IH ]; simpl; intro H.
  - repeat constructor.
  - inversion H as [ | ? ? Hl Hy ]; subst.
    destruct (fst x <=? fst y)%Z eqn:E.
    + apply Z.leb_le in E. constructor; [ assumption | ].
      constructor; [ exact E | ].
      eapply Forall_impl; [ | exact Hy ].
      unfold number_le. intros; lia.
    + apply Z.leb_gt in E. constructor; [ now apply IH | ].
      rewrite Forall_forall in *. intros z Hz.
      apply (Permutation_in _ (insert_sorted_Permutation x l)) in Hz.
      destruct Hz as [ <- | Hz ]; [ unfold number_le; lia | now apply Hy ].
Qed.

Lemma sort_index_sorted {A} (frame : list (Z * A)) :
  StronglySorted number_le (sort_index frame).
Proof.
  induction frame as [ | x l IH ]; simpl.
  - constructor.
  - now apply insert_sorted_sorted.
Qed.

(** ** Shape of the General Balance *)

(** A successful run relabels the frame of steps 1 to 4, sorts it and prints
    the numbers again. *)
Lemma calculate_balance_Ok (df : DataFrame) (out : BalanceFrame) :
  calculate_balance_by_account df = Ok out ->
  exists by_number,
    Forall2 relabelled (balance_before_sort df) by_number
    /\ out = index_astype_str (sort_index by_number).
Proof.
  unfold calculate_balance_by_account. intro H.
  destruct (index_astype_int (balance_before_sort df)) as [ g | e ] eqn:Hg;
    simpl in H; [ | discriminate ].
  injection H as <-. exists g. split; [ | reflexivity ].
  now apply index_astype_int_Ok.
Qed.

Lemma index_astype_str_rows {A} (frame : list (Z * A)) :
  map snd (index_astype_str frame) = map snd frame.
Proof.
  unfold index_astype_str. rewrite map_map. reflexivity.
Qed.

(** The lines of the General Balance are the lines of steps 1 to 4, in
    another order. *)
Lemma calculate_balance_rows (df : DataFrame) (out : BalanceFrame) :
  calculate_balance_by_account df = Ok out ->
  Permutation (map snd out) (map snd (balance_before_sort df)).
Proof.
  intro H. destruct (calculate_balance_Ok df out H) as [g [Hg ->]].
  rewrite index_astype_str_rows, <- (relabelled_rows _ _ Hg).
  apply Permutation_map, sort_index_Permutation.
Qed.

(** Every line of the General Balance comes from a line of steps 1 to 4
    whose label was parsed and printed again. *)
Lemma calculate_balance_In (df : DataFrame) (out : BalanceFrame) :
  calculate_balance_by_account df = Ok out ->
  forall k' row,
    In (k', row) out <->
    exists k n, In (k, row) (balance_before_sort df)
                /\ label_to_int64 k = Ok n /\ k' = Py.str n.
Proof.
  intros H k' row. destruct (calculate_balance_Ok df out H) as [g [Hg ->]].
  unfold index_astype_str. rewrite in_map_iff. split.
  - intros [[n r] [E Hin]]. simpl in E. injection E as <- <-.
    apply (Permutation_in _ (sort_index_Permutation g)) in Hin.
    destruct (relabelled_In _ _ Hg _ Hin) as [[k r'] [Hk [Hl Hr]]].
    simpl in Hl, Hr. subst r'. now exists k, n.
  - intros [k [n [Hin [Hl ->]]]].
    destruct (relabelled_In_inv _ _ Hg _ Hin) as [[n' r'] [Hk [Hl' Hr]]].
    simpl in Hl', Hr. subst r'. exists (n', row). split.
    + simpl. congruence.
    + apply (Permutation_in _ (Permutation_sym (sort_index_Permutation g))).
      assumption.
Qed.

(** ** The General Balance: volume and balance *)



Lemma balance_before_sort_row (df : DataFrame) (k : string) (row : Balance) :
  In (k, row) (balance_before_sort df) ->
  In k (accounts df)
  /\ row = with_final_balance
             (lookup k (groupby_sum Compte_Debit df),
              lookup k (groupby_sum Compte_Credit df)).
Proof.
  intro H. split.
  - apply balance_before_sort_In. apply in_map_iff. now exists (k, row).
  - unfold balance_before_sort, concat_axis1 in H. rewrite map_map in H.
    apply in_map_iff in H. destruct H as [k' [E _]]. simpl in E.
    now injection E as -> <-.
Qed.

(** C2. For every account of the General Balance, [Final_Balance] is exactly
    [Total_Debit - Total_Credit]. *)
Theorem final_balance_exact (df : DataFrame) (out : BalanceFrame)
        (k : string) (row : Balance) :
  calculate_balance_by_account df = Ok out ->
  In (k, row) out ->
  Final_Balance row = (Total_Debit row - Total_Credit row)%Q.
Proof.
  intros H Hin.
  apply (calculate_balance_In df out H) in Hin.
  destruct Hin as [k0 [n [Hin _]]].
  apply balance_before_sort_row in Hin. destruct Hin as [_ ->]. reflexivity.
Qed.

Lemma final_balance_exact_witness :
  calculate_balance_by_account scenario = Ok scenario_balance
  /\ In ("401", {| Total_Debit := 0; Total_Credit := 500;
                   Final_Balance := -500 |}) scenario_balance
  /\ (-500 = 0 - 500)%Q.
Proof.
  split; [ reflexivity | ]. split; [ now left | ].
  apply (final_balance_exact scenario scenario_balance "401"
           {| Total_Debit := 0; Total_Credit := 500;
              Final_Balance := -500 |}).
  - reflexivity.
  - now left.
Defined.

(** ** The General Balance: order and labels *)

Lemma label_to_int64_Ok (k : string) (n : Z) :
  label_to_int64 k = Ok n ->
  Py.int k = Some n /\ (int64_min <= n <= int64_max)%Z.
Proof.
  unfold label_to_int64. destruct (Py.int k) as [ m | ]; [ | discriminate ].
  destruct ((int64_min <=? m) && (m <=? int64_max))%Z eqn:E;
    [ | discriminate ].
  intro H. injection H as <-.
  apply andb_true_iff in E. destruct E as [E1 E2].
  apply Z.leb_le in E1, E2. now split.
Qed.

Lemma label_to_int64_in_range (k : string) (n : Z) :
  Py.int k = Some n -> (int64_min <= n <= int64_max)%Z ->
  label_to_int64 k = Ok n.
Proof.
  intros H [H1 H2]. unfold label_to_int64. rewrite H.
  apply Z.leb_le in H1, H2. now rewrite H1, H2.
Qed.

(** A label in canonical writing is printed back unchanged. *)
Lemma canonical_label_kept (k : string) (n : Z) :
  canonical k -> label_to_int64 k = Ok n -> Py.str n = k.
Proof.
  intros [m [_ ->]] H. apply label_to_int64_Ok in H. destruct H as [H _].
  rewrite PyFacts.int_str in H. congruence.
Qed.

Lemma printed_sorted {A} (frame : list (Z * A)) :
  StronglySorted number_le frame ->
  StronglySorted account_number_le (map fst (index_astype_str frame)).
Proof.
  induction 1 as [ | x l _ IH Hx ]; simpl; constructor; [ assumption | ].
  rewrite Forall_forall in *. intros k Hk.
  unfold index_astype_str in Hk. rewrite map_map in Hk.
  apply in_map_iff in Hk. destruct Hk as [y [<- Hy]]. simpl.
  exists (fst x), (fst y). rewrite !PyFacts.int_str.
  repeat split; try reflexivity. exact (Hx y Hy).
Qed.

(** The labels of the General Balance, for a ledger in canonical writing. *)
Lemma calculate_balance_labels_canonical (df : DataFrame)
      (out : BalanceFrame) :
  (forall id, In id (accounts df) -> canonical id) ->
  calculate_balance_by_account df = Ok out ->
  forall k row, In (k, row) out <-> In (k, row) (balance_before_sort df).
Proof.
  intros Hc H k row. rewrite (calculate_balance_In df out H). split.
  - intros [k0 [n [Hin [Hl ->]]]].
    destruct (balance_before_sort_row _ _ _ Hin) as [Hk0 _].
    now rewrite (canonical_label_kept k0 n (Hc k0 Hk0) Hl).
  - intro Hin. destruct (balance_before_sort_row _ _ _ Hin) as [Hk _].
    destruct (calculate_balance_Ok df out H) as [g [Hg _]].
    destruct (relabelled_In_inv _ _ Hg _ Hin) as [[n r] [_ [Hl _]]].
    simpl in Hl. exists k, n. repeat split; try assumption.
    symmetry. exact (canonical_label_kept k n (Hc k Hk) Hl).
Qed.

(** For a ledger in canonical writing, the totals of an account of the
    General Balance are the sums of [Montant] over the lines that debit it
    and over the lines that credit it. *)
Lemma account_totals (df : DataFrame) (out : BalanceFrame)
      (k : string) (row : Balance) :
  (forall id, In id (accounts df) -> canonical id) ->
  calculate_balance_by_account df = Ok out ->
  In (k, row) out ->
  Total_Debit row
  == sumQ (map Montant (filter (fun r => String.eqb (Compte_Debit r) k) df))
  /\ Total_Credit row
     == sumQ (map Montant
                  (filter (fun r => String.eqb (Compte_Credit r) k) df)).
Proof.
  intros Hc H Hin.
  apply (calculate_balance_labels_canonical df out Hc H) in Hin.
  destruct (balance_before_sort_row _ _ _ Hin) as [_ ->]. simpl.
  split; apply groupby_sum_account.
Qed.

(** C3, as amended. Whenever the aggregator returns, the General Balance is
    sorted ascending by the integer value of the account code; when moreover
    every account code of the ledger is in canonical decimal writing, every
    code of the General Balance is a code written in the ledger. *)
Theorem sorted_by_account_number (df : DataFrame) (out : BalanceFrame) :
  calculate_balance_by_account df = Ok out ->
  StronglySorted account_number_le (map fst out)
  /\ ((forall id, In id (accounts df) -> canonical id) ->
      forall k, In k (map fst out) -> In k (accounts df)).
Proof.
  intro H. split.
  - destruct (calculate_balance_Ok df out H) as [g [_ ->]].
    apply printed_sorted, sort_index_sorted.
  - intros Hc k Hk. apply in_map_iff in Hk. destruct Hk as [[k' row] [<- Hin]].
    apply (calculate_balance_labels_canonical df out Hc H) in Hin.
    now destruct (balance_before_sort_row _ _ _ Hin).
Qed.

Lemma scenario_canonical (id : string) :
  In id (accounts scenario) -> canonical id.
Proof.
  simpl. intros [ <- | [ <- | [ <- | [ <- | [] ] ] ] ].
  - now exists 411%Z.
  - now exists 607%Z.
  - now exists 707%Z.
  - now exists 401%Z.
Defined.

Lemma sorted_by_account_number_witness :
  calculate_balance_by_account scenario = Ok scenario_balance
  /\ StronglySorted account_number_le (map fst scenario_balance)
  /\ (forall k, In k (map fst scenario_balance) -> In k (accounts scenario)).
Proof.
  split; [ reflexivity | ].
  destruct (sorted_by_account_number scenario scenario_balance eq_refl)
    as [Hs Hl].
  split; [ exact Hs | exact (Hl scenario_canonical) ].
Defined.

(** C3, as stated, fails: every code of [leading_zero_debit] reads as a
    non-negative integer, yet the General Balance carries "411", a code the
    ledger never wrote (it wrote "0411"). *)
Lemma original_form_refuted :
  (forall id, In id (accounts leading_zero_debit) -> parses_non_negative id)
  /\ exists out,
       calculate_balance_by_account leading_zero_debit = Ok out
       /\ map fst out = ["411"; "707"]
       /\ ~ (forall k, In k (map fst out) ->
                       In k (accounts leading_zero_debit)).
Proof.
  split.
  - simpl. intros id [ <- | [ <- | [] ] ].
    + exists 411%Z. split; [ reflexivity | lia ].
    + exists 707%Z. split; [ reflexivity | lia ].
  - eexists. split; [ reflexivity | ]. split; [ reflexivity | ].
    intro H. specialize (H "411" (or_introl eq_refl)). simpl in H.
    destruct H as [ H | [ H | [] ] ]; discriminate.
Qed.

(** C4, as amended. For a ledger whose account codes are all in canonical
    decimal writing, the accounts of the General Balance are exactly the
    debit keys and credit keys of the ledger; an account never debited has
    [Total_Debit = 0], an account never credited has [Total_Credit = 0]. *)
Theorem accounts_of_the_balance (df : DataFrame) (out : BalanceFrame) :
  (forall id, In id (accounts df) -> canonical id) ->
  calculate_balance_by_account df = Ok out ->
  (forall k, In k (map fst out)
             <-> In k (map Compte_Debit df) \/ In k (map Compte_Credit df))
  /\ (forall k row, In (k, row) out -> ~ In k (map Compte_Debit df) ->
                    Total_Debit row = 0%Q)
  /\ (forall k row, In (k, row) out -> ~ In k (map Compte_Credit df) ->
                    Total_Credit row = 0%Q).
Proof.
  intros Hc H.
  pose proof (calculate_balance_labels_canonical df out Hc H) as Hrows.
  split; [ | split ].
  - intro k. rewrite <- in_app_iff. fold (accounts df).
    rewrite <- balance_before_sort_In. rewrite !in_map_iff. split.
    + intros [[k' row] [<- Hin]]. exists (k', row).
      split; [ reflexivity | now apply Hrows ].
    + intros [[k' row] [<- Hin]]. exists (k', row).
      split; [ reflexivity | now apply Hrows ].
  - intros k row Hin Hk. apply Hrows in Hin.
    destruct (balance_before_sort_row _ _ _ Hin) as [_ ->]. simpl.
    rewrite lookup_None; [ reflexivity | ].
    now rewrite groupby_sum_labels.
  - intros k row Hin Hk. apply Hrows in Hin.
    destruct (balance_before_sort_row _ _ _ Hin) as [_ ->]. simpl.
    rewrite lookup_None; [ reflexivity | ].
    now rewrite groupby_sum_labels.
Qed.

Lemma accounts_of_the_balance_witness :
  (forall k, In k (map fst scenario_balance)
             <-> In k (map Compte_Debit scenario)
                 \/ In k (map Compte_Credit scenario))
  /\ (forall k row, In (k, row) scenario_balance ->
                    ~ In k (map Compte_Debit scenario) ->
                    Total_Debit row = 0%Q)
  /\ (forall k row, In (k, row) scenario_balance ->
                    ~ In k (map Compte_Credit scenario) ->
                    Total_Credit row = 0%Q).
Proof.
  apply (accounts_of_the_balance scenario scenario_balance).
  - exact scenario_canonical.
  - reflexivity.
Defined.

(** C4, as stated, fails: [leading_zero_credit] credits "0401", and the
    General Balance has no account "0401"; it has "401", which is no key of
    the ledger. *)
Lemma union_of_keys_refuted :
  exists out,
    calculate_balance_by_account leading_zero_credit = Ok out
    /\ In "0401" (map Compte_Credit leading_zero_credit)
    /\ ~ In "0401" (map fst out)
    /\ In "401" (map fst out)
    /\ ~ (In "401" (map Compte_Debit leading_zero_credit)
          \/ In "401" (map Compte_Credit leading_zero_credit)).
Proof.
  eexists. split; [ reflexivity | ]. simpl.
  repeat split; try tauto.
  - intros [ H | [ H | [] ] ]; discriminate.
  - intros [ [ H | [] ] | [ H | [] ] ]; discriminate.
Qed.

(** ** Labels that [astype(int)] refuses *)

(** A single label that Python's [int] rejects makes the aggregator raise. *)
Lemma unparseable_label_raises (df : DataFrame) (id : string) :
  In id (accounts df) -> Py.int id = None ->
  exists e, calculate_balance_by_account df = Raise e.
Proof.
  intros Hin Hid. unfold calculate_balance_by_account.
  assert (Hl : label_to_int64 id = Raise ValueError).
  { unfold label_to_int64. now rewrite Hid. }
  apply balance_before_sort_In in Hin.
  destruct (index_astype_int_Raise _ _ _ Hin Hl) as [e ->].
  now exists e.
Qed.

(** C9, as amended. Some ledger with an account code that does not read as an
    integer makes the aggregator raise, and the main block lets the error
    through; every ledger whose account codes all read as non-negative
    integers below 2^63 is aggregated without error. *)
Theorem malformed_raises_int64_passes :
  (exists df id,
      In id (accounts df) /\ Py.int id = None
      /\ calculate_balance_by_account df = Raise ValueError
      /\ main df = Raise ValueError)
  /\ (forall df,
        (forall id, In id (accounts df) -> parses_int64_non_negative id) ->
        exists out, calculate_balance_by_account df = Ok out).
Proof.
  split.
  - exists malformed, "6O7". repeat split; try reflexivity. now left.
  - intros df H. unfold calculate_balance_by_account.
    destruct (index_astype_int_total (balance_before_sort df)) as [g Hg].
    + intros k Hk. apply balance_before_sort_In in Hk.
      destruct (H k Hk) as [n [Hn [H0 Hmax]]]. exists n.
      apply label_to_int64_in_range; [ assumption | ].
      split; [ | assumption ].
      assert (int64_min < 0)%Z by reflexivity. lia.
    + rewrite Hg. simpl. eauto.
Qed.

Lemma scenario_int64 (id : string) :
  In id (accounts scenario) -> parses_int64_non_negative id.
Proof.
  simpl. intros [ <- | [ <- | [ <- | [ <- | [] ] ] ] ].
  - exists 411%Z. split; [ reflexivity | ]. split; [ lia | discriminate ].
  - exists 607%Z. split; [ reflexivity | ]. split; [ lia | discriminate ].
  - exists 707%Z. split; [ reflexivity | ]. split; [ lia | discriminate ].
  - exists 401%Z. split; [ reflexivity | ]. split; [ lia | discriminate ].
Defined.

Lemma malformed_raises_int64_passes_witness :
  exists out, calculate_balance_by_account scenario = Ok out.
Proof.
  exact (proj2 malformed_raises_int64_passes scenario scenario_int64).
Defined.

(** C9, as stated, fails: the only codes of [beyond_int64] are
    "9223372036854775808" (2^63) and "707", both non-negative integers, and
    the aggregator raises [OverflowError]. *)
Lemma parseable_yet_raises :
  (forall id, In id (accounts beyond_int64) -> parses_non_negative id)
  /\ calculate_balance_by_account beyond_int64 = Raise OverflowError.
Proof.
  split; [ | reflexivity ].
  simpl. intros id [ <- | [ <- | [] ] ].
  - exists (2 ^ 63)%Z. split; [ reflexivity | lia ].
  - exists 707%Z. split; [ reflexivity | lia ].
Qed.

(** ** The integrity check *)

Lemma filter_all (A : Type) (f : A -> bool) (l : list A) :
  (forall x, In x l -> f x = true) -> filter f l = l.
Proof.
  induction l as [ | x l IH ]; simpl; intro H.
  - reflexivity.
  - rewrite (H x (or_introl eq_refl)). f_equal.
    apply IH. intros; apply H; now right.
Qed.

(** For a ledger in canonical writing, both accounts of every line are
    labels of the General Balance. *)
Lemma accounts_known (df : DataFrame) (out : BalanceFrame) :
  (forall id, In id (accounts df) -> canonical id) ->
  calculate_balance_by_account df = Ok out ->
  (forall row, In row df -> mem (Compte_Debit row) (map fst out) = true)
  /\ (forall row, In row df -> mem (Compte_Credit row) (map fst out) = true).
Proof.
  intros Hc H.
  assert (K : forall k, In k (accounts df) -> In k (map fst out)).
  { intros k Hk. apply balance_before_sort_In in Hk.
    apply in_map_iff in Hk. destruct Hk as [[k' row] [<- Hin]].
    apply in_map_iff. exists (k', row). split; [ reflexivity | ].
    now apply (calculate_balance_labels_canonical df out Hc H). }
  split; intros row Hrow; apply mem_In, K; unfold accounts;
    apply in_app_iff; [ left | right ]; now apply in_map.
Qed.

(** When every account code of the ledger is in canonical writing, every
    line of the ledger is known on both sides: the two totals are the same
    sum over the whole ledger and their difference is 0. *)
Lemma integrity_check_canonical (df : DataFrame) (out : BalanceFrame) :
  (forall id, In id (accounts df) -> canonical id) ->
  calculate_balance_by_account df = Ok out ->
  let chk := integrity_check df (map fst out) in
  total_debits chk = sumQ (map Montant df)
  /\ total_credits chk = sumQ (map Montant df)
  /\ difference chk == 0.
Proof.
  intros Hc H.
  destruct (accounts_known df out) as [Hd Hcr]; try assumption.
  unfold integrity_check, sum_where. simpl.
  rewrite !filter_all by assumption.
  repeat split. ring.
Qed.

(** C6 on [leading_zero_sale], a balanced ledger of volume 1500 whose codes
    all read as non-negative integers: the General Balance lists "411" for
    the code "0411", the first line is not known on its debit side, and the
    check reports 500 against 1500, a difference of -1000. *)
Theorem integrity_check_leading_zero :
  (forall id, In id (accounts leading_zero_sale) -> parses_non_negative id)
  /\ sumQ (map Montant leading_zero_sale) == 1500
  /\ exists balance_sheet income chk,
       main leading_zero_sale = Ok (balance_sheet, income, chk)
       /\ map fst balance_sheet = ["401"; "411"; "607"; "707"]
       /\ total_debits chk == 500
       /\ total_credits chk == 1500
       /\ difference chk == -1000.
Proof.
  split; [ | split ].
  - simpl. intros id [ <- | [ <- | [ <- | [ <- | [] ] ] ] ].
    + exists 411%Z. split; [ reflexivity | lia ].
    + exists 607%Z. split; [ reflexivity | lia ].
    + exists 707%Z. split; [ reflexivity | lia ].
    + exists 401%Z. split; [ reflexivity | lia ].
  - reflexivity.
  - do 3 eexists. split; [ reflexivity | ]. repeat split; reflexivity.
Qed.

(** ** Rounding to two decimal places *)



Lemma round_half_even_comp (x y : Q) :
  x == y -> round_half_even x = round_half_even y.
Proof.
  intro E. unfold round_half_even. rewrite (Qfloor_comp x y E).
  assert (E' : x - inject_Z (Qfloor y) == y - inject_Z (Qfloor y))
    by now rewrite E.
  now rewrite (Qcompare_comp _ _ E' _ _ (Qeq_refl (1 # 2))).
Qed.

(** [round2] does not see how a rational is written. *)
Lemma round2_comp (x y : Q) : x == y -> round2 x = round2 y.
Proof.
  intro E. unfold round2. f_equal. apply round_half_even_comp. now rewrite E.
Qed.

(** A two-place decimal is its own rounding. *)
Lemma round2_two_place (x : Q) : two_place_decimal x -> round2 x == x.
Proof.
  intros [k E]. unfold round2.
  assert (Ek : x * 100 == inject_Z k) by (rewrite E; ring).
  rewrite (round_half_even_comp _ _ Ek). unfold round_half_even.
  rewrite Qfloor_Z.
  destruct (Qcompare_spec (inject_Z k - inject_Z k) (1 # 2)) as [ C | C | C ];
    try lra.
  rewrite E. unfold Qeq, inject_Z. simpl. lia.
Qed.

(** ** The income statement *)

Lemma filter_filter_implied (A : Type) (f g : A -> bool) (l : list A) :
  (forall x, g x = true -> f x = true) ->
  filter g (filter f l) = filter g l.
Proof.
  intro H. induction l as [ | x l IH ]; simpl.
  - reflexivity.
  - destruct (f x) eqn:Ef; simpl.
    + now rewrite IH.
    + destruct (g x) eqn:Eg; [ | assumption ].
      rewrite (H x Eg) in Ef. discriminate.
Qed.

(** The three values before rounding, read off the whole frame. *)
Lemma calculate_net_income_unfold (balance_df : BalanceFrame) :
  calculate_net_income balance_df
  = {| Total_Products := round2 (class_7_credits balance_df);
       Total_Charges := round2 (class_6_debits balance_df);
       Net_Income :=
         round2 (class_7_credits balance_df - class_6_debits balance_df) |}.
Proof.
  unfold calculate_net_income, class_7_credits, class_6_debits.
  rewrite (filter_filter_implied _ _ class_7),
          (filter_filter_implied _ _ class_6).
  - reflexivity.
  - intros e He. unfold class_6 in He. now rewrite He.
  - intros e He. unfold class_7 in He. rewrite He. apply orb_true_r.
Qed.


Lemma filter_none (A : Type) (f : A -> bool) (l : list A) :
  (forall x, In x l -> f x = false) -> filter f l = [].
Proof.
  induction l as [ | x l IH ]; simpl; intro H.
  - reflexivity.
  - rewrite (H x (or_introl eq_refl)). apply IH. intros; apply H; now right.
Qed.

(** C8. On a General Balance without any account of class 6 or 7 the income
    classifier, a total function, returns 0 for the three values. *)
Theorem no_income_no_expense (balance_df : BalanceFrame) :
  (forall k, In k (map fst balance_df) ->
             startswith "6" k = false /\ startswith "7" k = false) ->
  Total_Products (calculate_net_income balance_df) == 0
  /\ Total_Charges (calculate_net_income balance_df) == 0
  /\ Net_Income (calculate_net_income balance_df) == 0.
Proof.
  intro H. rewrite calculate_net_income_unfold.
  unfold class_7_credits, class_6_debits.
  rewrite !filter_none.
  - repeat split; reflexivity.
  - intros e He. apply (H (fst e)). now apply in_map.
  - intros e He. apply (H (fst e)). now apply in_map.
Qed.

Lemma no_income_no_expense_witness :
  calculate_balance_by_account client_payment = Ok client_payment_balance
  /\ Net_Income (calculate_net_income client_payment_balance) == 0.
Proof.
  split; [ reflexivity | ].
  apply (no_income_no_expense client_payment_balance).
  simpl. intros k [ <- | [ <- | [] ] ]; split; reflexivity.
Defined.

Lemma sumQ_Forall2 (l l' : list Q) :
  Forall2 Qeq l l' -> sumQ l == sumQ l'.
Proof.
  induction 1 as [ | x y l l' E _ IH ].
  - reflexivity.
  - now rewrite !sumQ_cons, E, IH.
Qed.

Lemma agree_on_sum (class : string * Balance -> bool) (col : Balance -> Q)
      (b1 b2 : BalanceFrame) :
  agree_on class col b1 b2 ->
  sumQ (map (fun e => col (snd e)) (filter class b1))
  == sumQ (map (fun e => col (snd e)) (filter class b2)).
Proof.
  unfold agree_on. intro H. apply sumQ_Forall2.
  induction H as [ | e1 e2 l1 l2 [_ E] _ IH ]; simpl; constructor; assumption.
Qed.

(** C10. Two frames that list the same class-7 accounts with equal credits
    and the same class-6 accounts with equal debits get the same income
    statement, whatever their balances, the other side of those accounts and
    their accounts of other classes. *)
Theorem income_depends_on_class_6_7_only (b1 b2 : BalanceFrame) :
  agree_on class_7 Total_Credit b1 b2 ->
  agree_on class_6 Total_Debit b1 b2 ->
  calculate_net_income b1 = calculate_net_income b2.
Proof.
  intros H7 H6. rewrite !calculate_net_income_unfold.
  pose proof (agree_on_sum _ _ _ _ H7) as E7.
  pose proof (agree_on_sum _ _ _ _ H6) as E6.
  fold (class_7_credits b1) (class_7_credits b2) in E7.
  fold (class_6_debits b1) (class_6_debits b2) in E6.
  rewrite (round2_comp _ _ E7), (round2_comp _ _ E6).
  rewrite (round2_comp (class_7_credits b1 - class_6_debits b1)
                       (class_7_credits b2 - class_6_debits b2));
    [ reflexivity | now rewrite E7, E6 ].
Qed.

Lemma income_depends_on_class_6_7_only_witness :
  scenario_balance <> scenario_variant
  /\ calculate_net_income scenario_balance
     = calculate_net_income scenario_variant.
Proof.
  split; [ discriminate | ].
  apply (income_depends_on_class_6_7_only scenario_balance scenario_variant).
  - unfold agree_on. simpl. repeat constructor.
  - unfold agree_on. simpl. repeat constructor.
Defined.

(** When the two totals are two-place decimals, as sums of currency amounts
    are, the returned net income is the returned products minus the returned
    charges. *)
Lemma net_income_of_returned_totals (balance_df : BalanceFrame) :
  two_place_decimal (class_7_credits balance_df) ->
  two_place_decimal (class_6_debits balance_df) ->
  let r := calculate_net_income balance_df in
  Net_Income r == Total_Products r - Total_Charges r.
Proof.
  intros Hp Hc. cbv zeta. rewrite calculate_net_income_unfold. simpl.
  rewrite (round2_two_place _ Hp), (round2_two_place _ Hc).
  apply round2_two_place.
  destruct Hp as [kp Ep], Hc as [kc Ec]. exists (kp - kc)%Z.
  rewrite Ep, Ec. unfold Zminus. rewrite inject_Z_plus, inject_Z_opp. ring.
Qed.

(** ** The scenario of the specification *)

(** C7. On the two-line ledger 411/707 for 1000.00 and 607/401 for 500.00 the
    aggregator returns the four accounts 401, 411, 607, 707 in this order
    with the stated totals, the income classifier returns 1000.00, 500.00 and
    500.00, and the integrity check reports a difference of 0. *)
Theorem concrete_scenario :
  calculate_balance_by_account scenario = Ok scenario_balance
  /\ map fst scenario_balance = ["401"; "411"; "607"; "707"]
  /\ calculate_net_income scenario_balance
     = {| Total_Products := 1000.00;
          Total_Charges := 500.00;
          Net_Income := 500.00 |}
  /\ difference (integrity_check scenario (map fst scenario_balance)) == 0
  /\ main scenario
     = Ok (scenario_balance,
           {| Total_Products := 1000.00;
              Total_Charges := 500.00;
              Net_Income := 500.00 |},
           {| total_debits := 1500; total_credits := 1500;
              difference := 0 |}).
Proof.
  split; [ reflexivity | ]. split; [ reflexivity | ].
  split; [ reflexivity | ]. split; reflexivity.
Qed.

(** * Further properties of the General Balance *)




Lemma sumQ_nonneg (l : list Q) : Forall (fun x => 0 <= x) l -> 0 <= sumQ l.
Proof.
  induction 1 as [ | x l Hx _ IH ].
  - apply Qle_refl.
  - rewrite sumQ_cons. lra.
Qed.

Lemma sumQ_filter_le (A : Type) (f : A -> Q) (p : A -> bool) (l : list A) :
  (forall x, In x l -> 0 <= f x) ->
  0 <= sumQ (map f (filter p l)) /\ sumQ (map f (filter p l)) <= sumQ (map f l).
Proof.
  induction l as [ | x l IH ]; simpl; intro H.
  - split; apply Qle_refl.
  - destruct IH as [IH0 IH1]; [ intros; apply H; now right | ].
    pose proof (H x (or_introl eq_refl)) as Hx.
    destruct (p x); simpl; rewrite ?sumQ_cons; split; lra.
Qed.

(** The row of a label before sorting, read on the ledger. *)
Lemma balance_before_sort_totals_of (df : DataFrame) (k : string)
      (row : Balance) :
  In (k, row) (balance_before_sort df) ->
  Total_Debit row
  == sumQ (map Montant (filter (fun r => String.eqb (Compte_Debit r) k) df))
  /\ Total_Credit row
     == sumQ (map Montant
                  (filter (fun r => String.eqb (Compte_Credit r) k) df)).
Proof.
  intro Hin. destruct (balance_before_sort_row _ _ _ Hin) as [_ ->]. simpl.
  split; apply groupby_sum_account.
Qed.

(** X1. Every line of the General Balance stands for one account code [k] of
    the ledger: its label is the printed integer value of [k], its
    [Total_Debit] is the sum of [Montant] over the ledger lines that debit
    [k], its [Total_Credit] the sum over the lines that credit [k]. *)
Theorem row_totals_of_its_account (df : DataFrame) (out : BalanceFrame)
        (label : string) (row : Balance) :
  calculate_balance_by_account df = Ok out ->
  In (label, row) out ->
  exists k n,
    In k (accounts df) /\ Py.int k = Some n /\ label = Py.str n
    /\ Total_Debit row
       == sumQ (map Montant
                    (filter (fun r => String.eqb (Compte_Debit r) k) df))
    /\ Total_Credit row
       == sumQ (map Montant
                    (filter (fun r => String.eqb (Compte_Credit r) k) df)).
Proof.
  intros H Hin. apply (calculate_balance_In df out H) in Hin.
  destruct Hin as [k [n [Hin [Hl ->]]]]. exists k, n.
  destruct (balance_before_sort_row _ _ _ Hin) as [Hk _].
  destruct (label_to_int64_Ok _ _ Hl) as [Hn _].
  destruct (balance_before_sort_totals_of _ _ _ Hin) as [Hd Hc].
  repeat split; assumption.
Qed.

Lemma row_totals_of_its_account_witness :
  exists k n,
    In k (accounts leading_zero_sale) /\ Py.int k = Some n
    /\ "411" = Py.str n
    /\ 1000
       == sumQ (map Montant
                    (filter (fun r => String.eqb (Compte_Debit r) k)
                            leading_zero_sale))
    /\ 0
       == sumQ (map Montant
                    (filter (fun r => String.eqb (Compte_Credit r) k)
                            leading_zero_sale)).
Proof.
  eapply (row_totals_of_its_account leading_zero_sale _ "411"
            {| Total_Debit := 1000; Total_Credit := 0;
               Final_Balance := 1000 |}).
  - reflexivity.
  - right. left. reflexivity.
Defined.

(** X2. Every account code of the ledger has its line in the General
    Balance, under the printed integer value of the code and with the totals
    of that code. *)
Theorem every_account_has_its_row (df : DataFrame) (out : BalanceFrame)
        (k : string) :
  calculate_balance_by_account df = Ok out ->
  In k (accounts df) ->
  exists n row,
    Py.int k = Some n /\ In (Py.str n, row) out
    /\ Total_Debit row
       == sumQ (map Montant
                    (filter (fun r => String.eqb (Compte_Debit r) k) df))
    /\ Total_Credit row
       == sumQ (map Montant
                    (filter (fun r => String.eqb (Compte_Credit r) k) df)).
Proof.
  intros H Hk. apply balance_before_sort_In in Hk.
  apply in_map_iff in Hk. destruct Hk as [[k' row] [E Hin]].
  simpl in E. subst k'.
  destruct (calculate_balance_Ok df out H) as [g [Hg _]].
  destruct (relabelled_In_inv _ _ Hg _ Hin) as [[n r] [_ [Hl _]]].
  simpl in Hl. destruct (label_to_int64_Ok _ _ Hl) as [Hn _].
  destruct (balance_before_sort_totals_of _ _ _ Hin) as [Hd Hc].
  exists n, row. repeat split; try assumption.
  apply (calculate_balance_In df out H). now exists k, n.
Qed.

Lemma every_account_has_its_row_witness :
  exists n row,
    Py.int "0411" = Some n /\ In (Py.str n, row) scenario_balance
    /\ Total_Debit row
       == sumQ (map Montant
                    (filter (fun r => String.eqb (Compte_Debit r) "0411")
                            leading_zero_sale))
    /\ Total_Credit row
       == sumQ (map Montant
                    (filter (fun r => String.eqb (Compte_Credit r) "0411")
                            leading_zero_sale)).
Proof.
  apply (every_account_has_its_row leading_zero_sale scenario_balance "0411").
  - reflexivity.
  - left. reflexivity.
Defined.



(** The aggregator returns as soon as every code reads as an integer that a
    signed 64-bit integer holds. *)
Lemma calculate_balance_returns (df : DataFrame) :
  (forall id, In id (accounts df) -> exists n, label_to_int64 id = Ok n) ->
  exists out, calculate_balance_by_account df = Ok out.
Proof.
  intro H. unfold calculate_balance_by_account.
  destruct (index_astype_int_total (balance_before_sort df)) as [g Hg].
  - intros k Hk. apply H. now apply balance_before_sort_In.
  - rewrite Hg. simpl. eauto.
Qed.


(** X5. The General Balance has one line for each distinct account code of
    the ledger: codes that differ as strings are never merged, even when
    they read as the same integer. *)
Theorem one_row_per_distinct_code (df : DataFrame) (out : BalanceFrame) :
  calculate_balance_by_account df = Ok out ->
  List.length out = List.length (nodup string_dec (accounts df)).
Proof.
  intro H.
  rewrite <- (length_map snd out).
  rewrite (Permutation_length (calculate_balance_rows df out H)).
  rewrite length_map, <- (length_map fst (balance_before_sort df)).
  apply Permutation_length, NoDup_Permutation.
  - apply balance_before_sort_NoDup.
  - apply NoDup_nodup.
  - intro k. rewrite nodup_In. apply balance_before_sort_In.
Qed.

Lemma one_row_per_distinct_code_witness :
  calculate_balance_by_account scenario = Ok scenario_balance
  /\ List.length scenario_balance
     = List.length (nodup string_dec (accounts scenario)).
Proof.
  split; [ reflexivity | ].
  apply (one_row_per_distinct_code scenario scenario_balance). reflexivity.
Defined.

Lemma relabelled_canonical {A} (frame : list (string * A)) by_number :
  Forall2 relabelled frame by_number ->
  (forall e, In e frame -> canonical (fst e)) ->
  index_astype_str by_number = frame.
Proof.
  induction 1 as [ | [k r] [n r'] f g [Hl Hr] _ IH ]; simpl; intro Hc.
  - reflexivity.
  - simpl in Hl, Hr. subst r'. f_equal.
    + f_equal. apply (canonical_label_kept k n); [ | assumption ].
      apply (Hc (k, r)). now left.
    + apply IH. intros; apply Hc; now right.
Qed.

(** For a ledger in canonical writing, sorting only reorders the frame of
    steps 1 to 4. *)
Lemma canonical_frame_kept (df : DataFrame) (out : BalanceFrame) :
  (forall id, In id (accounts df) -> canonical id) ->
  calculate_balance_by_account df = Ok out ->
  Permutation out (balance_before_sort df).
Proof.
  intros Hc H. destruct (calculate_balance_Ok df out H) as [g [Hg ->]].
  assert (E : index_astype_str g = balance_before_sort df).
  { apply (relabelled_canonical _ _ Hg). intros [k row] Hin. simpl.
    destruct (balance_before_sort_row _ _ _ Hin) as [Hk _]. now apply Hc. }
  rewrite <- E. unfold index_astype_str.
  apply Permutation_map, sort_index_Permutation.
Qed.

(** X6. For a ledger whose codes are in canonical writing, no account is
    listed twice in the General Balance. *)
Theorem no_account_twice (df : DataFrame) (out : BalanceFrame) :
  (forall id, In id (accounts df) -> canonical id) ->
  calculate_balance_by_account df = Ok out ->
  NoDup (map fst out).
Proof.
  intros Hc H.
  apply (Permutation_NoDup
           (Permutation_sym
              (Permutation_map fst (canonical_frame_kept df out Hc H)))).
  apply balance_before_sort_NoDup.
Qed.

Lemma no_account_twice_witness : NoDup (map fst scenario_balance).
Proof.
  apply (no_account_twice scenario scenario_balance).
  - exact scenario_canonical.
  - reflexivity.
Defined.

(** X7. When no amount of the ledger is negative, every total of the General
    Balance lies between 0 and the volume of the ledger. *)
Theorem totals_within_volume (df : DataFrame) (out : BalanceFrame)
        (label : string) (row : Balance) :
  (forall r, In r df -> 0 <= Montant r) ->
  calculate_balance_by_account df = Ok out ->
  In (label, row) out ->
  (0 <= Total_Debit row /\ Total_Debit row <= sumQ (map Montant df))
  /\ (0 <= Total_Credit row /\ Total_Credit row <= sumQ (map Montant df)).
Proof.
  intros Hpos H Hin. apply (calculate_balance_In df out H) in Hin.
  destruct Hin as [k [n [Hin _]]].
  destruct (balance_before_sort_totals_of _ _ _ Hin) as [Hd Hc].
  rewrite Hd, Hc. split; apply sumQ_filter_le; assumption.
Qed.

Lemma totals_within_volume_witness :
  (0 <= 500 /\ 500 <= sumQ (map Montant scenario))
  /\ (0 <= 0 /\ 0 <= sumQ (map Montant scenario)).
Proof.
  apply (totals_within_volume scenario scenario_balance "607"
           {| Total_Debit := 500; Total_Credit := 0;
              Final_Balance := 500 |}).
  - simpl. intros r [ <- | [ <- | [] ] ]; discriminate.
  - reflexivity.
  - right. right. left. reflexivity.
Defined.

Lemma one_row_of_first_line (r : Ecriture) (df : DataFrame) :
  In (Compte_Debit r) (map fst (balance_before_sort (r :: df))).
Proof.
  apply balance_before_sort_In. unfold accounts. simpl. now left.
Qed.

(** X8. The General Balance is empty exactly when the ledger is. *)
Theorem empty_balance_iff_empty_ledger (df : DataFrame)
        (out : BalanceFrame) :
  calculate_balance_by_account df = Ok out ->
  (out = [] <-> df = []).
Proof.
  intro H. split.
  - intro E. subst out. destruct df as [ | r df ]; [ reflexivity | ].
    pose proof (one_row_of_first_line r df) as Hin.
    apply in_map_iff in Hin. destruct Hin as [[k row] [_ Hin]].
    destruct (calculate_balance_Ok _ _ H) as [g [Hg E]].
    destruct (relabelled_In_inv _ _ Hg _ Hin) as [e' [Hin' _]].
    apply (Permutation_in _ (Permutation_sym (sort_index_Permutation g)))
      in Hin'.
    apply (in_map (fun e => (Py.str (fst e), snd e))) in Hin'.
    fold (index_astype_str (sort_index g)) in Hin'. rewrite <- E in Hin'.
    contradiction.
  - intro E. subst df. now injection H as <-.
Qed.

Lemma empty_balance_iff_empty_ledger_witness :
  scenario_balance = [] <-> scenario = [].
Proof.
  apply (empty_balance_iff_empty_ledger scenario scenario_balance).
  reflexivity.
Defined.


(** ** The order of the ledger lines *)













(** * Further properties of the income statement and of the integrity check *)













(** ** The integrity check and the labels it is run against *)

(** X13. For a ledger whose codes are in canonical writing and that the
    aggregator accepts, the main block ends with both totals of the
    integrity check equal to the volume of the ledger and a difference of
    0. *)
Theorem integrity_check_passes (df : DataFrame) (out : BalanceFrame) :
  (forall id, In id (accounts df) -> canonical id) ->
  calculate_balance_by_account df = Ok out ->
  exists income chk,
    main df = Ok (out, income, chk)
    /\ total_debits chk == sumQ (map Montant df)
    /\ total_credits chk == sumQ (map Montant df)
    /\ difference chk == 0.
Proof.
  intros Hc H. unfold main. rewrite H. simpl.
  exists (calculate_net_income out), (integrity_check df (map fst out)).
  split; [ reflexivity | ].
  destruct (accounts_known df out Hc H) as [Hd Hcr].
  unfold integrity_check, sum_where. simpl.
  rewrite !filter_all by assumption.
  repeat split; try reflexivity. ring.
Qed.

Lemma integrity_check_passes_witness :
  exists income chk,
    main scenario = Ok (scenario_balance, income, chk)
    /\ total_debits chk == sumQ (map Montant scenario)
    /\ total_credits chk == sumQ (map Montant scenario)
    /\ difference chk == 0.
Proof.
  apply (integrity_check_passes scenario scenario_balance).
  - exact scenario_canonical.
  - reflexivity.
Defined.

(** X14. Whatever the index it is run against, the integrity check can only
    lose volume: when no amount is negative, each of its two totals lies
    between 0 and the volume of the ledger. *)
Theorem integrity_totals_within_volume (df : DataFrame)
        (index : list string) :
  (forall r, In r df -> 0 <= Montant r) ->
  let chk := integrity_check df index in
  (0 <= total_debits chk /\ total_debits chk <= sumQ (map Montant df))
  /\ (0 <= total_credits chk /\ total_credits chk <= sumQ (map Montant df)).
Proof.
  intro Hpos. unfold integrity_check, sum_where. simpl.
  split; apply sumQ_filter_le; assumption.
Qed.

Lemma integrity_totals_within_volume_witness :
  let chk := integrity_check leading_zero_sale ["401"; "411"; "607"; "707"] in
  (0 <= total_debits chk
   /\ total_debits chk <= sumQ (map Montant leading_zero_sale))
  /\ (0 <= total_credits chk
      /\ total_credits chk <= sumQ (map Montant leading_zero_sale)).
Proof.
  apply (integrity_totals_within_volume leading_zero_sale).
  simpl. intros r [ <- | [ <- | [] ] ]; discriminate.
Defined.

(** X15. Every label of the General Balance is the printed form of an
    integer that a signed 64-bit integer holds: it reads back as that
    integer, and printing it again gives the same label. *)
Theorem labels_read_back (df : DataFrame) (out : BalanceFrame)
        (label : string) :
  calculate_balance_by_account df = Ok out ->
  In label (map fst out) ->
  exists n,
    Py.int label = Some n /\ Py.str n = label
    /\ (int64_min <= n <= int64_max)%Z.
Proof.
  intros H Hin. apply in_map_iff in Hin.
  destruct Hin as [[k row] [E Hin]]. simpl in E. subst k.
  apply (calculate_balance_In df out H) in Hin.
  destruct Hin as [k [n [_ [Hl ->]]]]. exists n.
  destruct (label_to_int64_Ok _ _ Hl) as [_ Hr].
  split; [ apply PyFacts.int_str | now split ].
Qed.

Lemma labels_read_back_witness :
  exists n,
    Py.int "411" = Some n /\ Py.str n = "411"
    /\ (int64_min <= n <= int64_max)%Z.
Proof.
  apply (labels_read_back leading_zero_sale scenario_balance "411").
  - reflexivity.
  - right. left. reflexivity.
Defined.

(** * Properties of the ledger generator *)

(** ** One turn of the loop *)

Lemma one_record_inv (i : Z) (t : Draw) (r : RawRecord) :
  one_record i t = Ok r ->
  raw_ID_Transaction r = i
  /\ raw_Compte_Debit r = debit (snd (choice t))
  /\ raw_Compte_Credit r = credit (snd (choice t))
  /\ raw_Montant r = round2 (uniform t)
  /\ raw_Libelle r = full_libelle_of (fst (choice t)) i t
  /\ exists d, Datetime.add start_date (randint t) = Ok d
               /\ raw_Date r = Datetime.isoformat d.
Proof.
  unfold one_record, Datetime.timedelta.
  destruct ((-999999999 <=? randint t) && (randint t <=? 999999999))%Z;
    simpl; [ | discriminate ].
  destruct (Datetime.add start_date (randint t)) as [ d | e ]; simpl;
    [ | discriminate ].
  intro H. injection H as <-. simpl. repeat split. now exists d.
Qed.




(** ** The loop *)

Lemma records_loop_inv (rng : Z -> Draw) (turns : list Z) :
  forall rs, records_loop rng turns = Ok rs ->
             Forall2 (fun i r => one_record i (rng i) = Ok r) turns rs.
Proof.
  induction turns as [ | i turns IH ]; simpl; intros rs H.
  - injection H as <-. constructor.
  - destruct (one_record i (rng i)) as [ r | e ] eqn:Hr; simpl in H;
      [ | discriminate ].
    destruct (records_loop rng turns) as [ rs' | e ]; simpl in H;
      [ | discriminate ].
    injection H as <-. constructor; [ assumption | now apply IH ].
Qed.


(** Every line of a generated ledger is the record of one turn of the loop
    with its accounts printed. *)
Lemma generated_line (rng : Z -> Draw) (num_entries : Z) (df : DataFrame)
      (line : Ecriture) :
  generate_grand_livre rng num_entries = Ok df ->
  In line df ->
  exists i r,
    In i (turns_of num_entries) /\ one_record i (rng i) = Ok r
    /\ line = accounts_astype_str r.
Proof.
  unfold generate_grand_livre.
  destruct (records_loop rng (turns_of num_entries)) as [ rs | e ] eqn:Hrs;
    simpl; [ | discriminate ].
  intro H. injection H as <-. intro Hin.
  apply in_map_iff in Hin. destruct Hin as [r [<- Hr]].
  apply records_loop_inv in Hrs. clear - Hrs Hr.
  induction Hrs as [ | i r0 turns rs H0 _ IH ]; simpl in Hr.
  - contradiction.
  - destruct Hr as [ -> | Hr ].
    + exists i, r. repeat split; [ now left | assumption ].
    + destruct (IH Hr) as [j [r' [Hj [Hr' E]]]].
      exists j, r'. repeat split; [ now right | assumption | assumption ].
Qed.


Lemma sample_rng_in_contract (i : Z) :
  In i (turns_of 4) -> draw_in_contract (sample_rng i).
Proof.
  simpl. unfold draw_in_contract.
  intros [ <- | [ <- | [ <- | [ <- | [] ] ] ] ];
    (split; [ simpl; tauto | ]);
    (split; [ split; discriminate | ]); split; discriminate.
Qed.

(** ** The generated ledger *)

Lemma records_ids (rng : Z -> Draw) (turns : list Z) (rs : list RawRecord) :
  Forall2 (fun i r => one_record i (rng i) = Ok r) turns rs ->
  map raw_ID_Transaction rs = turns.
Proof.
  induction 1 as [ | i r turns rs H _ IH ]; simpl.
  - reflexivity.
  - destruct (one_record_inv _ _ _ H) as [-> _]. now rewrite IH.
Qed.

(** X16. A generated ledger has [num_entries] lines (none when
    [num_entries] is not positive), numbered 1, 2, ... in order by
    [ID_Transaction]. *)
Theorem generated_ids (rng : Z -> Draw) (num_entries : Z) (df : DataFrame) :
  generate_grand_livre rng num_entries = Ok df ->
  map ID_Transaction df = map Z.of_nat (seq 1 (Z.to_nat num_entries))
  /\ List.length df = Z.to_nat num_entries.
Proof.
  unfold generate_grand_livre.
  destruct (records_loop rng (turns_of num_entries)) as [ rs | e ] eqn:Hrs;
    simpl; [ | discriminate ].
  intro H. injection H as <-.
  apply records_loop_inv, records_ids in Hrs.
  assert (E : map ID_Transaction (map accounts_astype_str rs)
              = turns_of num_entries).
  { rewrite map_map. exact Hrs. }
  split; [ exact E | ].
  rewrite <- (length_map ID_Transaction), E. unfold turns_of.
  now rewrite length_map, length_seq.
Qed.

Lemma generated_ids_witness :
  exists df,
    generate_grand_livre sample_rng 4 = Ok df
    /\ map ID_Transaction df = [1; 2; 3; 4]%Z
    /\ List.length df = 4%nat.
Proof.
  destruct (generate_grand_livre sample_rng 4) as [ df | e ] eqn:H;
    [ | discriminate H ].
  exists df. split; [ reflexivity | ].
  exact (generated_ids sample_rng 4 df H).
Defined.



Lemma table_pair_printed (c : string * Logic) :
  In c TRANSACTIONS_LOGIC ->
  In (Py.str (debit (snd c)), Py.str (credit (snd c))) table_pairs
  /\ (0 <= debit (snd c))%Z /\ (0 <= credit (snd c))%Z.
Proof.
  simpl. intros [ <- | [ <- | [ <- | [ <- | [ <- | [ <- | [] ] ] ] ] ] ];
    (split; [ simpl; tauto | split; discriminate ]).
Qed.

(** X18. Every line of a generated ledger debits and credits one of the six
    account pairs of [TRANSACTIONS_LOGIC], printed as decimal strings; its
    two accounts differ. *)
Theorem generated_pairs (rng : Z -> Draw) (num_entries : Z) (df : DataFrame)
        (line : Ecriture) :
  (forall i, (1 <= i <= num_entries)%Z ->
             In (choice (rng i)) TRANSACTIONS_LOGIC) ->
  generate_grand_livre rng num_entries = Ok df ->
  In line df ->
  In (Compte_Debit line, Compte_Credit line) table_pairs
  /\ Compte_Debit line <> Compte_Credit line.
Proof.
  intros Hc H Hin.
  destruct (generated_line _ _ _ _ H Hin) as [i [r [Hi [Hr ->]]]].
  destruct (one_record_inv _ _ _ Hr) as [_ [Hd [Hcr _]]].
  assert (Hrange : (1 <= i <= num_entries)%Z).
  { unfold turns_of in Hi. apply in_map_iff in Hi.
    destruct Hi as [k [<- Hk]]. apply in_seq in Hk. lia. }
  destruct (table_pair_printed _ (Hc i Hrange)) as [Hp _].
  simpl. rewrite Hd, Hcr. split; [ exact Hp | ].
  revert Hp. generalize (Py.str (debit (snd (choice (rng i))))).
  generalize (Py.str (credit (snd (choice (rng i))))).
  intros c d. simpl.
  intros [ E | [ E | [ E | [ E | [ E | [ E | [] ] ] ] ] ] ];
    injection E as <- <-; discriminate.
Qed.

Lemma sample_rng_choice (i : Z) :
  (1 <= i <= 4)%Z -> In (choice (sample_rng i)) TRANSACTIONS_LOGIC.
Proof.
  intro H. assert (E : (i = 1 \/ i = 2 \/ i = 3 \/ i = 4)%Z) by lia.
  destruct E as [ -> | [ -> | [ -> | -> ] ] ]; simpl; tauto.
Qed.

Lemma generated_pairs_witness :
  exists df line,
    generate_grand_livre sample_rng 4 = Ok df /\ In line df
    /\ In (Compte_Debit line, Compte_Credit line) table_pairs
    /\ Compte_Debit line <> Compte_Credit line.
Proof.
  eexists. eexists. split; [ reflexivity | ]. split; [ now left | ].
  eapply (generated_pairs sample_rng 4).
  - exact sample_rng_choice.
  - reflexivity.
  - now left.
Defined.

Lemma round_half_even_between (a b : Z) (y : Q) :
  inject_Z a <= y -> y <= inject_Z b ->
  (a <= round_half_even y <= b)%Z.
Proof.
  intros Ha Hb. unfold round_half_even.
  pose proof (Qfloor_resp_le _ _ Ha) as La. rewrite Qfloor_Z in La.
  pose proof (Qfloor_resp_le _ _ Hb) as Lb. rewrite Qfloor_Z in Lb.
  pose proof (Qfloor_le y) as Hfl.
  assert (Hlt : (Qfloor y < b)%Z \/ Qfloor y = b) by lia.
  destruct (Qcompare_spec (y - inject_Z (Qfloor y)) (1 # 2)) as [ E | L | G ].
  - destruct (Z.even (Qfloor y)); [ lia | ].
    destruct Hlt as [ Hlt | Heq ]; [ lia | ].
    rewrite Heq in E. lra.
  - lia.
  - destruct Hlt as [ Hlt | Heq ]; [ lia | ].
    rewrite Heq in G. lra.
Qed.

Lemma round2_two_place_value (x : Q) : two_place_decimal (round2 x).
Proof.
  exists (round_half_even (x * 100)). unfold round2, Qeq, inject_Z.
  simpl. lia.
Qed.

(** X19. When every amount drawn lies between 50 and 5000, as
    [random.uniform(50, 5000)] promises, every [Montant] of the generated
    ledger is a two-place decimal between 50 and 5000. *)
Theorem generated_amounts (rng : Z -> Draw) (num_entries : Z)
        (df : DataFrame) (line : Ecriture) :
  (forall i, (1 <= i <= num_entries)%Z ->
             50 <= uniform (rng i) /\ uniform (rng i) <= 5000) ->
  generate_grand_livre rng num_entries = Ok df ->
  In line df ->
  two_place_decimal (Montant line)
  /\ 50 <= Montant line /\ Montant line <= 5000.
Proof.
  intros Hc H Hin.
  destruct (generated_line _ _ _ _ H Hin) as [i [r [Hi [Hr ->]]]].
  destruct (one_record_inv _ _ _ Hr) as [_ [_ [_ [Hm _]]]].
  assert (Hrange : (1 <= i <= num_entries)%Z).
  { unfold turns_of in Hi. apply in_map_iff in Hi.
    destruct Hi as [k [<- Hk]]. apply in_seq in Hk. lia. }
  destruct (Hc i Hrange) as [Hlo Hhi].
  simpl. rewrite Hm. split; [ apply round2_two_place_value | ].
  destruct (round_half_even_between 5000 500000 (uniform (rng i) * 100))
    as [K1 K2].
  - change (inject_Z 5000) with (50 * 100). lra.
  - change (inject_Z 500000) with (5000 * 100). lra.
  - unfold round2, Qle. simpl. lia.
Qed.

Lemma sample_rng_uniform (i : Z) :
  (1 <= i <= 4)%Z ->
  50 <= uniform (sample_rng i) /\ uniform (sample_rng i) <= 5000.
Proof.
  intro H. assert (E : (i = 1 \/ i = 2 \/ i = 3 \/ i = 4)%Z) by lia.
  destruct E as [ -> | [ -> | [ -> | -> ] ] ]; split; discriminate.
Qed.

Lemma generated_amounts_witness :
  exists df line,
    generate_grand_livre sample_rng 4 = Ok df /\ In line df
    /\ two_place_decimal (Montant line)
    /\ 50 <= Montant line /\ Montant line <= 5000.
Proof.
  eexists. eexists. split; [ reflexivity | ]. split; [ now left | ].
  eapply (generated_amounts sample_rng 4).
  - exact sample_rng_uniform.
  - reflexivity.
  - now left.
Defined.

(** ** Dates *)






(** * The generator feeding the analysis *)

Lemma table_pairs_accounts (d c : string) :
  In (d, c) table_pairs -> In d table_accounts /\ In c table_accounts.
Proof.
  simpl. intros [ E | [ E | [ E | [ E | [ E | [ E | [] ] ] ] ] ] ];
    injection E as <- <-; simpl; tauto.
Qed.

Lemma table_accounts_canonical (id : string) :
  In id table_accounts ->
  canonical id /\ exists n, label_to_int64 id = Ok n.
Proof.
  simpl. intros [ <- | [ <- | [ <- | [ <- | [ <- | [ <- | [ <- | [] ] ] ] ] ] ] ].
  - split; [ now exists 401%Z | now exists 401%Z ].
  - split; [ now exists 411%Z | now exists 411%Z ].
  - split; [ now exists 512%Z | now exists 512%Z ].
  - split; [ now exists 607%Z | now exists 607%Z ].
  - split; [ now exists 627%Z | now exists 627%Z ].
  - split; [ now exists 641%Z | now exists 641%Z ].
  - split; [ now exists 707%Z | now exists 707%Z ].
Qed.

Section Generated.

Variable rng : Z -> Draw.
Variable num_entries : Z.
Variable df : DataFrame.

Hypothesis choice_in_table :
  forall i, (1 <= i <= num_entries)%Z ->
            In (choice (rng i)) TRANSACTIONS_LOGIC.
Hypothesis generated : generate_grand_livre rng num_entries = Ok df.

Lemma generated_line_pair (line : Ecriture) :
  In line df -> In (Compte_Debit line, Compte_Credit line) table_pairs.
Proof.
  intro Hin.
  destruct (generated_line _ _ _ _ generated Hin) as [i [r [Hi [Hr ->]]]].
  destruct (one_record_inv _ _ _ Hr) as [_ [Hd [Hcr _]]].
  assert (Hrange : (1 <= i <= num_entries)%Z).
  { unfold turns_of in Hi. apply in_map_iff in Hi.
    destruct Hi as [k [<- Hk]]. apply in_seq in Hk. lia. }
  destruct (table_pair_printed _ (choice_in_table i Hrange)) as [Hp _].
  simpl. now rewrite Hd, Hcr.
Qed.

Lemma generated_accounts (id : string) :
  In id (accounts df) -> In id table_accounts.
Proof.
  unfold accounts. rewrite in_app_iff, !in_map_iff.
  intros [ [line [<- Hin]] | [line [<- Hin]] ];
    apply generated_line_pair, table_pairs_accounts in Hin; tauto.
Qed.

Lemma generated_accounts_canonical (id : string) :
  In id (accounts df) -> canonical id.
Proof.
  intro H. now apply table_accounts_canonical, generated_accounts.
Qed.

Lemma generated_ledger_accepted :
  exists out, calculate_balance_by_account df = Ok out.
Proof.
  apply calculate_balance_returns. intros id Hid.
  now apply table_accounts_canonical, generated_accounts.
Qed.

End Generated.

(** X21. End to end: on every ledger the generator returns from choices
    taken in [TRANSACTIONS_LOGIC], the main block of the analysis runs
    without error, and its integrity check reports both totals equal to the
    volume of the ledger and a difference of 0. *)
Theorem analysis_of_generated_ledger (rng : Z -> Draw) (num_entries : Z)
        (df : DataFrame) :
  (forall i, (1 <= i <= num_entries)%Z ->
             In (choice (rng i)) TRANSACTIONS_LOGIC) ->
  generate_grand_livre rng num_entries = Ok df ->
  exists balance_sheet income chk,
    main df = Ok (balance_sheet, income, chk)
    /\ total_debits chk == sumQ (map Montant df)
    /\ total_credits chk == sumQ (map Montant df)
    /\ difference chk == 0.
Proof.
  intros Hc H.
  destruct (generated_ledger_accepted rng num_entries df Hc H) as [out Ho].
  pose proof (generated_accounts_canonical rng num_entries df Hc H) as Hcan.
  exists out, (calculate_net_income out), (integrity_check df (map fst out)).
  split.
  - unfold main. now rewrite Ho.
  - destruct (integrity_check_canonical df out Hcan Ho) as [E1 [E2 E3]].
    rewrite E1, E2. repeat split; try reflexivity. exact E3.
Qed.

Lemma analysis_of_generated_ledger_witness :
  exists df balance_sheet income chk,
    generate_grand_livre sample_rng 4 = Ok df
    /\ main df = Ok (balance_sheet, income, chk)
    /\ difference chk == 0.
Proof.
  destruct (generate_grand_livre sample_rng 4) as [ df | e ] eqn:H;
    [ | discriminate H ].
  destruct (analysis_of_generated_ledger sample_rng 4 df
              sample_rng_choice H)
    as [bs [inc [chk [Hm [_ [_ Hd]]]]]].
  exists df, bs, inc, chk. repeat split; assumption.
Defined.

(** X22. The General Balance of such a ledger lists only accounts of
    [TRANSACTIONS_LOGIC], each at most once: it has at most seven lines. *)
Theorem balance_of_generated_ledger (rng : Z -> Draw) (num_entries : Z)
        (df : DataFrame) (out : BalanceFrame) :
  (forall i, (1 <= i <= num_entries)%Z ->
             In (choice (rng i)) TRANSACTIONS_LOGIC) ->
  generate_grand_livre rng num_entries = Ok df ->
  calculate_balance_by_account df = Ok out ->
  (forall label, In label (map fst out) -> In label table_accounts)
  /\ NoDup (map fst out)
  /\ (List.length out <= 7)%nat.
Proof.
  intros Hc H Ho.
  pose proof (generated_accounts_canonical rng num_entries df Hc H) as Hcan.
  pose proof (Permutation_map fst (canonical_frame_kept df out Hcan Ho)) as P.
  assert (Hl : forall label, In label (map fst out) ->
                             In label table_accounts).
  { intros label Hin. apply (Permutation_in _ P) in Hin.
    apply balance_before_sort_In in Hin.
    exact (generated_accounts rng num_entries df Hc H label Hin). }
  assert (Hnd : NoDup (map fst out)).
  { apply (Permutation_NoDup (Permutation_sym P)).
    apply balance_before_sort_NoDup. }
  repeat split; try assumption.
  rewrite <- (length_map fst out).
  exact (NoDup_incl_length Hnd Hl).
Qed.

Lemma balance_of_generated_ledger_witness :
  exists df out,
    generate_grand_livre sample_rng 4 = Ok df
    /\ calculate_balance_by_account df = Ok out
    /\ (List.length out <= 7)%nat.
Proof.
  destruct (generate_grand_livre sample_rng 4) as [ df | e ] eqn:H;
    [ | discriminate H ].
  destruct (generated_ledger_accepted sample_rng 4 df sample_rng_choice H)
    as [out Ho].
  destruct (balance_of_generated_ledger sample_rng 4 df out
              sample_rng_choice H Ho) as [_ [_ L]].
  exists df, out. repeat split; assumption.
Defined.





